(** * Sentiment-analysis service: a shallow embedding and its properties

    The development follows the layout of the repository:

    - [Py]                 the fragment of Python values, dictionaries and
                           exceptions that the services manipulate;
    - [SentimentAnalyzer]  services/sentiment_analyzer.py;
    - [Vader]              the lexicon scorer behind [polarity_scores]
                           (a third-party package, modelled from the
                           specification);
    - [ExternalApi]        services/external_api.py, with the retry
                           decorator that wraps the HuggingFace call;
    - [Routes]             the history endpoint of routes/sentiment.py.

    Scores are Python floats.  Where the code only compares, negates or
    multiplies them, they are IEEE-754 binary64 values (Rocq's primitive
    floats, so NaN and the infinities are part of the model).  The lexicon
    scorer is analysed over the real numbers, the setting in which the
    specification states its normalisation formula. *)

From Stdlib Require Import ZArith Reals Lra Lia String Ascii List Bool Floats.
Import ListNotations.

#[local] Set Warnings "-inexact-float,-register-all".
#[local] Open Scope string_scope.

(* ================================================================== *)
(** * Python values, dictionaries and exceptions *)
(* ================================================================== *)

Module Py.

Section Values.
(** [F] is the carrier of Python's [float]. *)
Context {F : Type}.

(** The values [json.loads] can produce, which are also the values the
    services store in their result dictionaries.  A [dict] keeps its
    insertion order; lookup finds the first binding of a key.  Members of
    the [str]-mixin enums ([SentimentLabel], [APIProvider]) are the
    strings that are their values. *)
Inductive pyval : Type :=
| PNone
| PBool (b : bool)
| PInt (z : Z)
| PFloat (x : F)
| PStr (s : string)
| PList (l : list pyval)
| PDict (d : list (string * pyval)).

(** A Python [dict] with string keys. *)
Definition dict : Type := list (string * pyval).

(** [d.get(k)] *)
Fixpoint get (d : dict) (k : string) : option pyval :=
  match d with
  | [] => None
  | (k', v) :: d' => if String.eqb k' k then Some v else get d' k
  end.

(** [d.get(k, default)] *)
Definition get_default (d : dict) (k : string) (default : pyval) : pyval :=
  match get d k with Some v => v | None => default end.

(** [list(d.keys())] *)
Definition keys (d : dict) : list string := map fst d.

(** [k in d] for a dictionary *)
Definition has_key (d : dict) (k : string) : bool :=
  match get d k with Some _ => true | None => false end.

(** Exceptions.  Messages are kept structured: [Prefixed p e] is the
    f-string [f"{p}{str(e)}"], [StrOf e] is [str(e)]. *)
Inductive exn : Type :=
| ExternalAPIError (provider : string) (message : msg) (status_code : option Z)
| RequestException (message : string)
| KeyError (key : string)
| TypeError
| AttributeError
| OverflowError
| RecursionError
| ValueError (message : string)
| Exception_ (message : msg)
with msg : Type :=
| Text (s : string)
| RequestFailed (status_code : Z) (text : string)
| UnexpectedFormat (result : pyval)
| UnsupportedProvider (provider : string)
| StrOf (e : exn)
| Prefixed (prefix : string) (e : exn).

(** The outcome of a call: an exception raised, or a value returned. *)
Definition result (A : Type) : Type := (exn + A)%type.

(** The error monad of outcomes. *)
Definition raise {A} (e : exn) : result A := inl e.
Definition ret {A} (a : A) : result A := inr a.
Definition bind {A B} (r : result A) (k : A -> result B) : result B :=
  match r with inl e => inl e | inr a => k a end.

(** [d[k]], raising [KeyError] on a missing key *)
Definition getitem (d : dict) (k : string) : result pyval :=
  match get d k with Some v => ret v | None => raise (KeyError k) end.
End Values.

Arguments pyval : clear implicits.
Arguments dict : clear implicits.
Arguments exn : clear implicits.
Arguments msg : clear implicits.
Arguments result : clear implicits.

(** [str.lower()] on the ASCII range; other bytes are left as they are.
    No character outside ASCII lowers to a letter of "positive",
    "negative" or "huggingface", so the comparisons below are not
    affected by the restriction. *)
Definition lower_ascii (c : ascii) : ascii :=
  let n := nat_of_ascii c in
  if (65 <=? n)%nat && (n <=? 90)%nat then ascii_of_nat (n + 32) else c.

(** [s.lower()] *)
Fixpoint lower (s : string) : string :=
  match s with
  | EmptyString => EmptyString
  | String c s' => String (lower_ascii c) (lower s')
  end.

(** [sub in s] for two strings *)
Fixpoint contains (sub s : string) : bool :=
  String.prefix sub s ||
  match s with
  | EmptyString => false
  | String _ s' => contains sub s'
  end.

(** The values Python orders with a float: a [float], an [int], a
    [bool]. *)
Definition is_number {F} (v : pyval F) : bool :=
  match v with
  | PFloat _ | PInt _ | PBool _ => true
  | _ => false
  end.

(** Truth value of an optional string ([None] and [""] are falsy). *)
Definition truthy (o : option string) : bool :=
  match o with
  | Some s => negb (String.eqb s "")
  | None => false
  end.

End Py.

Notation "x <- r ;; k" := (Py.bind r (fun x => k))
  (at level 61, r at next level, right associativity).

(* ================================================================== *)
(** * services/sentiment_analyzer.py *)
(* ================================================================== *)

Module SentimentAnalyzer.
Import Py.

(** What [get_sentiment_label] asks of a compound score: to be comparable
    with the float literals of the source. *)
Class Score (F : Type) : Type := {
  of_literal : float -> F;
  ge : F -> F -> bool;
  le : F -> F -> bool
}.

(** Binary64 scores: the comparisons are those of IEEE-754. *)
#[export] Instance float_score : Score float := {
  of_literal := fun x => x;
  ge := fun a b => PrimFloat.leb b a;
  le := fun a b => PrimFloat.leb a b
}.

(** The real number denoted by a finite binary64 value. *)
Definition float_to_R (x : float) : R :=
  match Prim2SF x with
  | S754_finite s m e =>
      ((if s then -1 else 1) * IZR (Zpos m) * powerRZ 2 e)%R
  | _ => 0%R
  end.

(** Real scores, compared with the exact value of a float literal. *)
#[export] Instance real_score : Score R := {
  of_literal := float_to_R;
  ge := fun a b => if Rle_dec b a then true else false;
  le := fun a b => if Rle_dec a b then true else false
}.

(** [class SentimentLabel(str, Enum)] *)
Inductive SentimentLabel : Type := POSITIVE | NEGATIVE | NEUTRAL.

(** The value of an enum member ([SentimentLabel] mixes in [str]). *)
Definition label_value (l : SentimentLabel) : string :=
  match l with
  | POSITIVE => "positive"
  | NEGATIVE => "negative"
  | NEUTRAL => "neutral"
  end.

(** The order between an [int] and a binary64 value.  Python decides it
    on the exact values, without converting the int; a NaN is not ordered
    with anything. *)
Definition compare_int_float (n : Z) (x : float) : option comparison :=
  match Prim2SF x with
  | S754_nan => None
  | S754_infinity s => Some (if s then Gt else Lt)
  | S754_zero _ => Some (n ?= 0)%Z
  | S754_finite s m e =>
      let v := if s then Zneg m else Zpos m in
      Some (if (0 <=? e)%Z then (n ?= v * 2 ^ e)%Z
            else (n * 2 ^ (- e) ?= v)%Z)
  end.

(** [n >= x] for an [int] and a float *)
Definition int_ge (n : Z) (x : float) : bool :=
  match compare_int_float n x with
  | Some Eq | Some Gt => true
  | _ => false
  end.

(** [n <= x] for an [int] and a float *)
Definition int_le (n : Z) (x : float) : bool :=
  match compare_int_float n x with
  | Some Eq | Some Lt => true
  | _ => false
  end.

(** [SentimentAnalyzer.get_sentiment_label] when the score it is given is
    an [int]: the same two comparisons with the float literals. *)
Definition get_sentiment_label_int (compound_score : Z) : SentimentLabel :=
  if int_ge compound_score 0.05%float then POSITIVE
  else if int_le compound_score (-0.05)%float then NEGATIVE
  else NEUTRAL.

Section Analyzer.
Context {F : Type} `{Score F}.

(** [SentimentAnalyzer.get_sentiment_label] *)
Definition get_sentiment_label (compound_score : F) : SentimentLabel :=
  if ge compound_score (of_literal 0.05%float) then POSITIVE
  else if le compound_score (of_literal (-0.05)%float) then NEGATIVE
  else NEUTRAL.

(** [self.vader.polarity_scores], the call into the scorer. *)
Variable polarity_scores : string -> result F (dict F).

(** [SentimentAnalyzer.analyze_with_vader] *)
Definition analyze_with_vader (text : string) : result F (dict F) :=
  polarity_scores text.

(** [self.get_sentiment_label(compound_score)] for the value found under
    "compound".  The annotation promises a float, and Python checks none:
    an [int] (a [bool] is the int 0 or 1) is compared with the two
    literals as well, and any other value cannot be ordered with a float. *)
Definition label_of_score (v : pyval F) : result F SentimentLabel :=
  match v with
  | PFloat x => ret (get_sentiment_label x)
  | PInt n => ret (get_sentiment_label_int n)
  | PBool b => ret (get_sentiment_label_int (if b then 1 else 0))
  | _ => raise TypeError
  end.

(** [SentimentAnalyzer.analyze] *)
Definition analyze (text : string) : result F (dict F) :=
  vader_scores <- analyze_with_vader text ;;
  compound_score <- getitem vader_scores "compound" ;;
  sentiment_label <- label_of_score compound_score ;;
  pos <- getitem vader_scores "pos" ;;
  neg <- getitem vader_scores "neg" ;;
  neu <- getitem vader_scores "neu" ;;
  ret [ ("scores", PDict [ ("positive", pos);
                           ("negative", neg);
                           ("neutral", neu);
                           ("compound", compound_score) ]);
        ("label", PStr (label_value sentiment_label));
        ("text", PStr text) ].

(** Readers of the dictionary [analyze] returns: the score stored under a
    key of [result["scores"]], and [result["label"]]. *)
Definition score_of (r : dict F) (k : string) : option F :=
  match get r "scores" with
  | Some (PDict scores) =>
      match get scores k with
      | Some (PFloat x) => Some x
      | _ => None
      end
  | _ => None
  end.

(** [result["label"]], when it is a string. *)
Definition label_of_result (r : dict F) : option string :=
  match get r "label" with
  | Some (PStr l) => Some l
  | _ => None
  end.

(** [analyze_text]: every exception is logged and replaced by a plain
    [Exception] carrying its text. *)
Definition analyze_text (text : string) : result F (dict F) :=
  match analyze text with
  | inr r => ret r
  | inl e => raise (Exception_ (Prefixed "Failed to analyze text: " e))
  end.
End Analyzer.

End SentimentAnalyzer.


(* ================================================================== *)
(** * The lexicon scorer behind [polarity_scores] *)
(* ================================================================== *)

(** The service calls [SentimentIntensityAnalyzer.polarity_scores], which
    belongs to a package whose code is not part of the repository.  This
    module models that scorer from the specification (its data model, its
    four components and their algorithms), over the real numbers.  The
    lexicon table, the three sets of modifier words and the two emphasis
    constants that the specification leaves unnamed are parameters.
    Where the specification of the normalizer departs from the values the
    package returns (the weight of a scored token in the proportions, and
    the result when nothing was scored), [normalize] follows the package
    and says so. *)

Module Vader.
Import Py.
Import SentimentAnalyzer.
#[local] Open Scope R_scope.

(** Modelled from the spec: the data model's Token (the scorer's code is
    missing): the surface text, its lower-case form, and its position. *)
Record Token : Type := {
  text : string;
  normalized : string;
  position : nat
}.

(** Modelled from the spec: the data model's ScoreAccumulator (the
    scorer's code is missing).  Beside the two sums and the count of
    neutral tokens it counts the tokens that entered each sum, which the
    proportions need (see [normalize]). *)
Record ScoreAccumulator : Type := {
  positive_sum : R;
  negative_sum : R;
  neutral_count : nat;
  positive_count : nat;
  negative_count : nat
}.

(** Modelled from the spec: the data model's SentimentResult (the
    scorer's code is missing). *)
Record SentimentResult : Type := {
  positive : R;
  negative : R;
  neutral : R;
  compound : R;
  label : SentimentAnalyzer.SentimentLabel
}.

(** ** Tokenizer *)

(** Modelled from the spec: the classes of characters the tokenizer (whose
    code is missing) tells apart, "whitespace and standard punctuation",
    with [!] and [?] as the punctuation that carries emphasis. *)
Inductive char_class : Type := Space | Emphasis | Punct | Letter.

(** Modelled from the spec: the class of an ASCII character (tokenizer,
    code missing); every byte that is neither white space nor punctuation
    is part of a word. *)
Definition classify (c : ascii) : char_class :=
  let n := nat_of_ascii c in
  if (n =? 32)%nat || (n =? 9)%nat || (n =? 10)%nat || (n =? 13)%nat then Space
  else if (n =? 33)%nat || (n =? 63)%nat then Emphasis
  else if ((33 <=? n) && (n <=? 47))%nat || ((58 <=? n) && (n <=? 64))%nat
          || ((91 <=? n) && (n <=? 96))%nat || ((123 <=? n) && (n <=? 126))%nat
       then Punct
  else Letter.

(** Modelled from the spec: the chunk read so far becomes a token, unless
    it is empty (tokenizer, code missing). *)
Definition flush (cur : string) : list string :=
  match cur with
  | EmptyString => []
  | _ => [cur]
  end.

(** Modelled from the spec: the tokenizer of the scorer ([polarity_scores]
    belongs to a package whose code is not part of the repository).
    "Splits on whitespace and standard punctuation boundaries, retains
    punctuation as separate tokens when it carries emphasis": words are
    maximal runs of letters, runs of [!] and [?] are kept as tokens, other
    punctuation and white space only separate.  [cur] is the chunk being
    read and [emph] tells whether it is a run of emphasis marks. *)
Fixpoint chunks (s : string) (cur : string) (emph : bool) : list string :=
  match s with
  | EmptyString => flush cur
  | String c s' =>
      match classify c with
      | Letter =>
          if emph then flush cur ++ chunks s' (String c EmptyString) false
          else chunks s' (cur ++ String c EmptyString) false
      | Emphasis =>
          if emph then chunks s' (cur ++ String c EmptyString) true
          else flush cur ++ chunks s' (String c EmptyString) true
      | Space | Punct => flush cur ++ chunks s' EmptyString false
      end
  end.

(** Modelled from the spec: tokens carry their normalized form and their
    position (tokenizer, code missing). *)
Fixpoint number (i : nat) (l : list string) : list Token :=
  match l with
  | [] => []
  | s :: l' =>
      {| text := s; normalized := lower s; position := i |} :: number (S i) l'
  end.

(** Modelled from the spec: [tokenize] (code missing), "an empty sequence
    for empty input". *)
Definition tokenize (t : string) : list Token :=
  number 0 (chunks t EmptyString false).

(** ** Heuristic scorer *)

(** Modelled from the spec: the negation factor of the scorer (code
    missing), "e.g. x0.74 after sign flip". *)
Definition negation_factor : R := 0.74.

(** Modelled from the spec: the booster and dampener delta of the scorer
    (code missing), "e.g. +-0.29". *)
Definition booster_delta : R := 0.29.

(** Modelled from the spec: the bound of the lexicon's valence range
    (lexicon data missing), "e.g. [-4, +4]". *)
Definition max_valence : R := 4.

(** Modelled from the spec: the smoothing constant of the normalizer (code
    missing), "commonly 15". *)
Definition alpha : R := 15.

(** Modelled from the spec: an ASCII capital letter (scorer, code missing). *)
Definition is_upper_char (c : ascii) : bool :=
  let n := nat_of_ascii c in ((65 <=? n) && (n <=? 90))%nat.

(** Modelled from the spec: an ASCII small letter (scorer, code missing). *)
Definition is_lower_char (c : ascii) : bool :=
  let n := nat_of_ascii c in ((97 <=? n) && (n <=? 122))%nat.

(** Modelled from the spec: a token "written in all capital letters"
    (scorer, code missing): at least one capital and no small letter. *)
Definition all_caps (s : string) : bool :=
  let cs := list_ascii_of_string s in
  existsb is_upper_char cs && negb (existsb is_lower_char cs).

(** Modelled from the spec: a token that is a run of emphasis punctuation
    (scorer, code missing). *)
Definition is_emphasis_run (s : string) : bool :=
  match list_ascii_of_string s with
  | [] => false
  | c :: _ => match classify c with Emphasis => true | _ => false end
  end.

(** Modelled from the spec: "add/subtract a fixed delta to magnitude"
    (scorer, code missing): [d] is added to the magnitude of [v], whose
    direction is kept. *)
Definition adjust_magnitude (v d : R) : R :=
  if Rlt_dec v 0 then v - d else v + d.

(** Modelled from the spec: "clipped to the lexicon's valence range"
    (scorer, code missing). *)
Definition clip (v : R) : R := Rmax (- max_valence) (Rmin max_valence v).

Section Lexicon.
(** The lexicon store: the table itself is data loaded at start-up. *)
Variable lookup : string -> option R.
Variables isBooster isDampener isNegator : string -> bool.
(** The emphasis constants, which the specification leaves unnamed. *)
Variable caps_delta : R.
Variable punctuation_bonus : nat -> R.

(** Modelled from the spec: step 2 of the scorer (code missing), the
    context of the three preceding tokens ([prev] lists the tokens already
    read, nearest first, so the window never runs past the start). *)
Definition apply_context (prev : list Token) (v : R) : R :=
  let w := map normalized (firstn 3 prev) in
  let v1 := if existsb isNegator w then - v * negation_factor else v in
  let v2 := if existsb isBooster w then adjust_magnitude v1 booster_delta else v1 in
  let v3 := if existsb isDampener w then adjust_magnitude v2 (- booster_delta) else v2 in
  clip v3.

(** Modelled from the spec: step 3 of the scorer (code missing), the
    emphasis of a token in capitals when the text has a token that is not. *)
Definition apply_caps (differential : bool) (t : Token) (v : R) : R :=
  if all_caps (text t) && differential then adjust_magnitude v caps_delta else v.

(** Modelled from the spec: steps 1 to 3 of the scorer (code missing) for
    one token; a word the lexicon does not know has no valence. *)
Definition valence (differential : bool) (prev : list Token) (t : Token) : option R :=
  match lookup (normalized t) with
  | Some v => Some (apply_caps differential t (apply_context prev v))
  | None => None
  end.

(** Modelled from the spec: steps 1 to 3 along the token sequence (scorer,
    code missing). *)
Fixpoint valences (differential : bool) (prev : list Token) (ts : list Token)
  : list (Token * option R) :=
  match ts with
  | [] => []
  | t :: ts' => (t, valence differential prev t) :: valences differential (t :: prev) ts'
  end.

(** Modelled from the spec: step 5 of the scorer (code missing), a run of
    emphasis marks adds its bonus to the nearest preceding scored
    contribution ([done] lists the contributions already settled, nearest
    first). *)
Fixpoint boost_nearest (b : R) (done : list (Token * option R))
  : list (Token * option R) :=
  match done with
  | [] => []
  | (t, Some v) :: rest =>
      if Req_dec_T v 0 then (t, Some v) :: boost_nearest b rest
      else (t, Some (adjust_magnitude v b)) :: rest
  | (t, None) :: rest => (t, None) :: boost_nearest b rest
  end.

(** Modelled from the spec: step 5 of the scorer (code missing), the pass
    over the whole sequence. *)
Fixpoint emphasis_pass (done todo : list (Token * option R))
  : list (Token * option R) :=
  match todo with
  | [] => rev done
  | (t, v) :: todo' =>
      if is_emphasis_run (text t)
      then emphasis_pass ((t, v) :: boost_nearest (punctuation_bonus (String.length (text t))) done) todo'
      else emphasis_pass ((t, v) :: done) todo'
  end.

(** Modelled from the spec: step 4 of the scorer (code missing), one
    contribution enters the accumulator; a token with no lexicon entry or
    zero intensity counts as neutral. *)
Definition accumulate (acc : ScoreAccumulator) (c : Token * option R)
  : ScoreAccumulator :=
  match snd c with
  | Some v =>
      if Rlt_dec 0 v then
        {| positive_sum := positive_sum acc + v;
           negative_sum := negative_sum acc;
           neutral_count := neutral_count acc;
           positive_count := S (positive_count acc);
           negative_count := negative_count acc |}
      else if Rlt_dec v 0 then
        {| positive_sum := positive_sum acc;
           negative_sum := negative_sum acc + v;
           neutral_count := neutral_count acc;
           positive_count := positive_count acc;
           negative_count := S (negative_count acc) |}
      else
        {| positive_sum := positive_sum acc;
           negative_sum := negative_sum acc;
           neutral_count := S (neutral_count acc);
           positive_count := positive_count acc;
           negative_count := negative_count acc |}
  | None =>
      {| positive_sum := positive_sum acc;
         negative_sum := negative_sum acc;
         neutral_count := S (neutral_count acc);
         positive_count := positive_count acc;
         negative_count := negative_count acc |}
  end.

(** Modelled from the spec: the accumulator a call starts from (scorer,
    code missing). *)
Definition empty_accumulator : ScoreAccumulator :=
  {| positive_sum := 0; negative_sum := 0; neutral_count := 0;
     positive_count := 0; negative_count := 0 |}.

(** Modelled from the spec: [score], the heuristic scorer (its code is
    not part of the repository). *)
Definition score (tokens : list Token) : ScoreAccumulator :=
  let differential :=
    existsb (fun t => all_caps (text t)) tokens
    && existsb (fun t => negb (all_caps (text t))) tokens in
  fold_left accumulate
    (emphasis_pass [] (valences differential [] tokens))
    empty_accumulator.

(** ** Score normalizer *)

(** Modelled from the spec: rounding "to a fixed decimal precision"
    (normalizer, code missing): the nearest integer, ties to the even one. *)
Definition round_half_even (x : R) : Z :=
  let n := Zfloor x in
  let d := x - IZR n in
  if Rlt_dec d (1 / 2) then n
  else if Rlt_dec (1 / 2) d then (n + 1)%Z
  else if Z.even n then n else (n + 1)%Z.

(** Modelled from the spec: "rounded to a fixed decimal precision
    (3 digits)" (normalizer, code missing). *)
Definition round3 (x : R) : R := IZR (round_half_even (x * 1000)) / 1000.

(** Modelled from the spec: the label thresholds of the data model
    (normalizer, code missing). *)
Definition label_of (c : R) : SentimentAnalyzer.SentimentLabel :=
  if Rle_dec 0.05 c then POSITIVE
  else if Rle_dec c (-0.05) then NEGATIVE
  else NEUTRAL.

(** Modelled from the spec: [normalize], the score normalizer (its code is
    not part of the repository).  The zero-total case is the guarded one.
    On two points the specification departs from what the package
    returns, and the package is followed.  In the proportions a scored
    token weighs one more than its magnitude, as a neutral token weighs 1
    (the package returns 0.477, 0.407 and 0.116 for one word of valence
    3.1, one of -2.5 and one neutral word); the compound score is
    computed from the plain sums.  And when nothing was scored the
    package returns 0.0 for the three proportions as for the compound
    score, where the specification has neutral = 1.0. *)
Definition normalize (acc : ScoreAccumulator) : SentimentResult :=
  let pos := positive_sum acc + INR (positive_count acc) in
  let neg := Rabs (negative_sum acc) + INR (negative_count acc) in
  let neu := INR (neutral_count acc) in
  let total := pos + neg + neu in
  if Req_dec_T total 0 then
    {| positive := 0; negative := 0; neutral := 0; compound := 0; label := NEUTRAL |}
  else
    let raw := positive_sum acc + negative_sum acc in
    let c := raw / R_sqrt.sqrt (raw * raw + alpha) in
    {| positive := round3 (pos / total);
       negative := round3 (neg / total);
       neutral := round3 (neu / total);
       compound := c;
       label := label_of c |}.

(** Modelled from the spec: the scorer's [analyze(text) -> SentimentResult]. *)
Definition analyze_spec (t : string) : SentimentResult :=
  normalize (score (tokenize t)).

(** Modelled from the spec: [polarity_scores], the entry point the service
    calls (its code is not part of the repository); it hands the four
    scores over under the keys the service reads. *)
Definition polarity_scores (t : string) : result R (dict R) :=
  let r := analyze_spec t in
  ret [ ("neg", PFloat (negative r));
        ("neu", PFloat (neutral r));
        ("pos", PFloat (positive r));
        ("compound", PFloat (compound r)) ].

(** The service's [analyze] and [analyze_text] running on this scorer. *)
Definition analyze (t : string) : result R (dict R) :=
  SentimentAnalyzer.analyze polarity_scores t.

(** The service's [analyze_text] running on this scorer. *)
Definition analyze_text (t : string) : result R (dict R) :=
  SentimentAnalyzer.analyze_text polarity_scores t.

End Lexicon.

End Vader.


(* ================================================================== *)
(** * services/external_api.py *)
(* ================================================================== *)

Module ExternalApi.
Import Py.
#[local] Open Scope float_scope.

(** Python values, results and exceptions with binary64 floats. *)
Definition value : Type := pyval float.
Definition SentimentResult : Type := dict float.
Definition error : Type := exn float.

(** ** The world outside the process *)

(** What [requests.post] does on one call: it raises a
    [RequestException] (connection failure, time-out), or hands back a
    response.  [json] is what [response.json()] does on that response: it
    returns the decoded body, or it raises.  On a body that is not JSON it
    raises [requests.exceptions.JSONDecodeError], a [RequestException]
    that carries the decoder's message; the other exceptions of the
    decoder pass through it as they are ([RecursionError] on a deeply
    nested body, [ValueError] on an integer past the digit limit), and
    these are no [RequestException]. *)
Inductive http_result : Type :=
| Raises (message : string)
| Response (status_code : Z) (text : string) (json : result float value).

(** The environment variable and the network, call by call. *)
Record world : Type := {
  HUGGINGFACE_API_KEY : option string;
  post : nat -> http_result
}.

(** A record written by [logger.warning] or [logger.error]. *)
Inductive log_record : Type :=
| Warning (m : msg float)
| Error (m : msg float).

(** What a run leaves behind: the number of times the body of
    [analyze_with_huggingface] was entered, the number of HTTP requests
    sent, the pauses taken (the values drawn from the wait generator, in
    seconds and in order), and the log. *)
Record state : Type := {
  attempts : nat;
  posts : nat;
  sleeps : list nat;
  log : list log_record
}.

(** The state before anything has run. *)
Definition initial : state :=
  {| attempts := 0; posts := 0; sleeps := []; log := [] |}.

(** Stateful, fallible computations. *)
Definition M (A : Type) : Type := state -> result float A * state.

(** A computation with no effect. *)
Definition pure {A} (r : result float A) : M A := fun st => (r, st).

(** The body of [analyze_with_huggingface] is entered once more. *)
Definition enter_attempt (st : state) : state :=
  {| attempts := S (attempts st); posts := posts st;
     sleeps := sleeps st; log := log st |}.

(** One more HTTP request has been sent. *)
Definition sent (st : state) : state :=
  {| attempts := attempts st; posts := S (posts st);
     sleeps := sleeps st; log := log st |}.

(** [time.sleep], recorded by the wait that bounds the pause. *)
Definition sleep (seconds : nat) (st : state) : state :=
  {| attempts := attempts st; posts := posts st;
     sleeps := sleeps st ++ [seconds]; log := log st |}.

(** One more record in the log. *)
Definition logged (r : log_record) (st : state) : state :=
  {| attempts := attempts st; posts := posts st;
     sleeps := sleeps st; log := log st ++ [r] |}.

(** ** Python's numeric operations on JSON values *)

(** [float(n)] for an [int]: the nearest binary64 value, [OverflowError]
    when there is none. *)
Definition float_of_int (z : Z) : result float float :=
  match binary_normalize prec emax z 0 false with
  | S754_infinity _ => raise OverflowError
  | x => ret (SF2Prim x)
  end.

(** [abs(v)] *)
Definition py_abs (v : value) : result float value :=
  match v with
  | PFloat x => ret (PFloat (abs x))
  | PInt z => ret (PInt (Z.abs z))
  | PBool b => ret (PInt (if b then 1 else 0))
  | _ => raise TypeError
  end.

(** [v * f] for a number [v] and a float [f] *)
Definition py_mul_float (v : value) (f : float) : result float float :=
  match v with
  | PFloat x => ret (x * f)
  | PInt z => x <- float_of_int z ;; ret (x * f)
  | PBool b => ret ((if b then 1 else 0) * f)
  | _ => raise TypeError
  end.

(** ["label" in result] *)
Definition label_in (r : value) : result float bool :=
  match r with
  | PDict d => ret (has_key d "label")
  | PList l =>
      ret (existsb (fun v => match v with
                             | PStr s => String.eqb s "label"
                             | _ => false
                             end) l)
  | PStr s => ret (contains "label" s)
  | _ => raise TypeError
  end.

(** [result["label"]]: only a dictionary can be indexed by a string. *)
Definition subscript (r : value) (k : string) : result float value :=
  match r with
  | PDict d => getitem d k
  | _ => raise TypeError
  end.

(** [result.get("score", 0.0)] *)
Definition get_score (r : value) : result float value :=
  match r with
  | PDict d => ret (get_default d "score" (PFloat 0.0))
  | _ => raise AttributeError
  end.

(** [v.lower()] *)
Definition str_lower (v : value) : result float string :=
  match v with
  | PStr s => ret (lower s)
  | _ => raise AttributeError
  end.

(** ** [SentimentAnalysisAPI] *)

(** [APIProvider.HUGGINGFACE], by its value. *)
Definition HUGGINGFACE : string := "huggingface".

(** The constructor of [SentimentResult], a [dict]. *)
Definition make_SentimentResult (provider text sentiment : string)
  (score : float) (raw_response : value) : SentimentResult :=
  [ ("provider", PStr provider);
    ("text", PStr text);
    ("sentiment", PStr sentiment);
    ("score", PFloat score);
    ("raw_response", raw_response) ].

(** The part of [analyze_with_huggingface] that reads a decoded body. *)
Definition parse_response (text : string) (body : value)
  : result float SentimentResult :=
  let result :=
    match body with
    | PList (first :: _) => first
    | _ => body
    end in
  found <- label_in result ;;
  if found : bool then
    l <- subscript result "label" ;;
    sentiment <- str_lower l ;;
    score <- get_score result ;;
    let '(sentiment, score_sign) :=
      if String.eqb sentiment "positive" then ("positive", 1.0)
      else if String.eqb sentiment "negative" then ("negative", -1.0)
      else ("neutral", 0.0) in
    a <- py_abs score ;;
    score <- py_mul_float a score_sign ;;
    ret (make_SentimentResult HUGGINGFACE text sentiment score result)
  else
    raise (ExternalAPIError "HuggingFace" (UnexpectedFormat result) (Some 200%Z)).

Section World.
Variable w : world.

(** The body of [analyze_with_huggingface], without its decorator. *)
Definition huggingface_once (text : string) : M SentimentResult :=
  fun st =>
    let st := enter_attempt st in
    if negb (truthy (HUGGINGFACE_API_KEY w)) then
      (raise (ExternalAPIError "HuggingFace" (Text "API key not set") (Some 400%Z)), st)
    else
      let response := post w (posts st) in
      let st := sent st in
      match response with
      | Raises m =>
          let e := RequestException m in
          (raise (ExternalAPIError "HuggingFace" (StrOf e) None),
           logged (Error (Prefixed "HuggingFace API request error: " e)) st)
      | Response status_code body json =>
          if negb (status_code =? 200)%Z then
            (raise (ExternalAPIError "HuggingFace"
                      (RequestFailed status_code body) (Some status_code)), st)
          else
            match json with
            | inr decoded => (parse_response text decoded, st)
            | inl (RequestException _ as e) =>
                (raise (ExternalAPIError "HuggingFace" (StrOf e) None),
                 logged (Error (Prefixed "HuggingFace API request error: " e)) st)
            | inl e => (raise e, st)
            end
      end.

(** The exceptions the decorator retries on:
    [(requests.exceptions.RequestException, ExternalAPIError)]. *)
Definition retryable (e : error) : bool :=
  match e with
  | ExternalAPIError _ _ _ | RequestException _ => true
  | _ => false
  end.

(** Modelled from the spec: the wait generator [backoff.expo] (the
    package's code is missing), "exponential backoff": 1, 2, 4, ... seconds.
    The decorator's jitter makes each pause a duration of at most the
    value drawn. *)
Definition expo (n : nat) : nat := 2 ^ n.

(** Modelled from the spec: the retry loop of [backoff.on_exception] (the
    package's code is not part of the repository), "exponential backoff
    with a bounded attempt count".  [remaining] is the number of tries
    left after the one being made, [n] the number of waits drawn so far.
    An exception outside the listed classes, or raised by the last try,
    goes to the caller; before any other try the loop pauses for at most
    [expo n] seconds. *)
Fixpoint retry_exception {A} (remaining n : nat) (target : M A) : M A :=
  fun st =>
    match target st with
    | (inr a, st') => (inr a, st')
    | (inl e, st') =>
        if retryable e then
          match remaining with
          | O => (inl e, st')
          | S remaining' =>
              retry_exception remaining' (S n) target (sleep (expo n) st')
          end
        else (inl e, st')
    end.

(** The decorator's [max_tries=3]. *)
Definition max_tries : nat := 3.

(** [analyze_with_huggingface], as decorated:
    [@backoff.on_exception(backoff.expo, (...), max_tries=3)]. *)
Definition analyze_with_huggingface (text : string) : M SentimentResult :=
  retry_exception (Nat.pred max_tries) 0 (huggingface_once text).

(** [SentimentAnalysisAPI.analyze] *)
Definition analyze (text : string) (provider : option string) : M SentimentResult :=
  fun st =>
    let unsupported :=
      match provider with
      | Some p => negb (String.eqb p HUGGINGFACE)
      | None => false
      end in
    if unsupported then
      (raise (ExternalAPIError "Provider"
                (UnsupportedProvider (match provider with Some p => p | None => "" end))
                (Some 400%Z)), st)
    else if truthy (HUGGINGFACE_API_KEY w) then
      match analyze_with_huggingface text st with
      | (inl (ExternalAPIError _ _ status_code as e), st') =>
          (raise (ExternalAPIError "HuggingFace" (StrOf e) status_code), st')
      | other => other
      end
    else
      (raise (ExternalAPIError "All providers"
                (Text "No sentiment analysis providers available") (Some 500%Z)), st).

(** [APIProvider(name)]: the member with that value, if any. *)
Definition APIProvider (name : string) : option string :=
  if String.eqb name HUGGINGFACE then Some HUGGINGFACE else None.

(** The conversion of the provider string at the head of
    [analyze_with_external_api]. *)
Definition convert_provider (provider : option string) (st : state)
  : option string * state :=
  if truthy provider then
    match provider with
    | Some p =>
        match APIProvider (lower p) with
        | Some member => (Some member, st)
        | None => (Some HUGGINGFACE, logged (Warning (UnsupportedProvider p)) st)
        end
    | None => (None, st)
    end
  else (None, st).

(** The dictionary built from the provider's result. *)
Definition response_of (text : string) (res : SentimentResult)
  : result float SentimentResult :=
  provider <- getitem res "provider" ;;
  sentiment <- getitem res "sentiment" ;;
  score <- getitem res "score" ;;
  confidence <- match score with
                | PNone => ret PNone
                | _ => py_abs score
                end ;;
  ret [ ("text", PStr text);
        ("provider", provider);
        ("sentiment", sentiment);
        ("score", score);
        ("confidence", confidence) ].

(** The body of [analyze_with_external_api] once the provider name is
    converted: the analysis, the dictionary built from its result, and the
    handler that logs any exception and raises a plain [Exception]. *)
Definition after_conversion (text : string) (api_provider : option string)
  : M SentimentResult :=
  fun st =>
    let '(r, st) := analyze text api_provider st in
    match (res <- r ;; response_of text res) with
    | inr d => (ret d, st)
    | inl e =>
        (raise (Exception_ (Prefixed "External sentiment analysis failed: " e)),
         logged (Error (Prefixed "External API analysis failed: " e)) st)
    end.

(** [analyze_with_external_api] *)
Definition analyze_with_external_api (text : string) (provider : option string)
  : M SentimentResult :=
  fun st =>
    let '(api_provider, st) := convert_provider provider st in
    after_conversion text api_provider st.

End World.

(** The label and sign of a result. *)
Definition verdict (sentiment : string) (sign : float) : Prop :=
  (sentiment = "positive" /\ sign = 1) \/
  (sentiment = "negative" /\ sign = -1) \/
  (sentiment = "neutral" /\ sign = 0).

(** Two states that differ in their logs only. *)
Definition same_effects (s1 s2 : state) : Prop :=
  attempts s1 = attempts s2 /\ posts s1 = posts s2 /\ sleeps s1 = sleeps s2.

(** A computation that neither reads the log nor lets it decide anything. *)
Definition log_blind {A} (f : M A) : Prop :=
  forall s1 s2, same_effects s1 s2 ->
    fst (f s1) = fst (f s2) /\ same_effects (snd (f s1)) (snd (f s2)).

End ExternalApi.


(* ================================================================== *)
(** * routes/sentiment.py: the history endpoint *)
(* ================================================================== *)

Module Routes.
Import Py.

(** Modelled from the spec: a row of [models.Analysis] (the declaration
    of the model is missing), with the columns the routes read and write:
    what the persistence collaborator receives after each analysis, "text,
    compound score, label, user identifier". *)
Record Analysis : Type := {
  text : string;
  sentiment_score : float;
  sentiment_label : string;
  user_id : Z
}.

(** Modelled from the spec: the user of [models.User] (the declaration of
    the model is missing), the "verified user identity" supplied by the
    authentication collaborator through [get_current_active_user]. *)
Record User : Type := {
  id : Z;
  username : string
}.

(** The table of analyses, in the order a query lists its rows. *)
Definition table : Type := list Analysis.

(** [db.query(models.Analysis).filter(models.Analysis.user_id == uid).all()] *)
Definition query_by_user (db : table) (uid : Z) : list Analysis :=
  filter (fun analysis => (user_id analysis =? uid)%Z) db.

(** One element of the list comprehension of [get_analysis_history]. *)
Definition history_entry (analysis : Analysis) : dict float :=
  [ ("text", PStr (text analysis));
    ("sentiment", PStr (sentiment_label analysis));
    ("score", PFloat (sentiment_score analysis));
    ("confidence", PFloat (abs (sentiment_score analysis)));
    ("provider", PStr "unknown") ].

(** [get_analysis_history] *)
Definition get_analysis_history (db : table) (current_user : User)
  : list (dict float) :=
  let analyses := query_by_user db (id current_user) in
  map history_entry analyses.

(** Two tables that differ in the rows of other users only: one is
    obtained from the other by inserting and deleting rows whose
    [user_id] is not [uid]. *)
Inductive differs_elsewhere (uid : Z) : table -> table -> Prop :=
| de_nil : differs_elsewhere uid [] []
| de_same (a : Analysis) (db db' : table) :
    differs_elsewhere uid db db' ->
    differs_elsewhere uid (a :: db) (a :: db')
| de_left (a : Analysis) (db db' : table) :
    user_id a <> uid ->
    differs_elsewhere uid db db' ->
    differs_elsewhere uid (a :: db) db'
| de_right (a : Analysis) (db db' : table) :
    user_id a <> uid ->
    differs_elsewhere uid db db' ->
    differs_elsewhere uid db (a :: db').

End Routes.


(* ================================================================== *)
(** * Signs of binary64 values *)
(* ================================================================== *)

Module FloatSpec.

(** A specification float that is NaN or carries the sign [s]. *)
Definition signed (s : bool) (x : spec_float) : Prop :=
  match x with
  | S754_nan => True
  | S754_zero s' | S754_infinity s' | S754_finite s' _ _ => s' = s
  end.

(** A float that is NaN or not negative, as [abs] returns them. *)
Definition absolute (a : float) : Prop := signed false (Prim2SF a).

End FloatSpec.


(* ================================================================== *)
(** * Concrete data used by the examples below *)
(* ================================================================== *)

Module Samples.
Import Py.

(** A two-word lexicon within the valence range, with no modifier words. *)
Definition sample_lookup (w : string) : option R :=
  if String.eqb w "great" then Some 3.1%R
  else if String.eqb w "bad" then Some (-2.5)%R
  else None.

(** An empty set of modifier words. *)
Definition no_word (_ : string) : bool := false.

(** Values for the two emphasis parameters. *)
Definition sample_caps_delta : R := 0.733%R.

Definition sample_punctuation_bonus (n : nat) : R :=
  (0.292 * INR (Nat.min n 4))%R.

(** The scorer and the analyzer over the sample lexicon. *)
Definition sample_score : list Vader.Token -> Vader.ScoreAccumulator :=
  Vader.score sample_lookup no_word no_word no_word
    sample_caps_delta sample_punctuation_bonus.

(** The service's [analyze] over the sample lexicon. *)
Definition sample_analyze : string -> result R (dict R) :=
  Vader.analyze sample_lookup no_word no_word no_word
    sample_caps_delta sample_punctuation_bonus.

(** A provider that answers every request with one positive verdict. *)
Definition good_world : ExternalApi.world :=
  {| ExternalApi.HUGGINGFACE_API_KEY := Some "hf_key";
     ExternalApi.post := fun _ =>
       ExternalApi.Response 200 "[{...}]"
         (inr (PList [PDict [("label", PStr "POSITIVE");
                             ("score", PFloat 0.9%float)]])) |}.

(** A provider that cannot be reached. *)
Definition down_world : ExternalApi.world :=
  {| ExternalApi.HUGGINGFACE_API_KEY := Some "hf_key";
     ExternalApi.post := fun _ => ExternalApi.Raises "connection refused" |}.

(** A provider whose score overflows binary64: the JSON number [1e999]
    is decoded as [inf]. *)
Definition overflow_world : ExternalApi.world :=
  {| ExternalApi.HUGGINGFACE_API_KEY := Some "hf_key";
     ExternalApi.post := fun _ =>
       ExternalApi.Response 200 "[{...}]"
         (inr (PList [PDict [("label", PStr "NEUTRAL");
                             ("score", PFloat infinity)]])) |}.

(** A table with the analyses of two users. *)
Definition sample_table : Routes.table :=
  [ {| Routes.text := "good"; Routes.sentiment_score := 0.44%float;
       Routes.sentiment_label := "positive"; Routes.user_id := 1 |};
    {| Routes.text := "awful"; Routes.sentiment_score := (-0.46)%float;
       Routes.sentiment_label := "negative"; Routes.user_id := 2 |};
    {| Routes.text := "fine"; Routes.sentiment_score := 0.2%float;
       Routes.sentiment_label := "positive"; Routes.user_id := 1 |} ].

(** The user with id 1. *)
Definition alice : Routes.User := {| Routes.id := 1; Routes.username := "alice" |}.

(** The same table without the analysis of the other user. *)
Definition alice_only : Routes.table :=
  [ {| Routes.text := "good"; Routes.sentiment_score := 0.44%float;
       Routes.sentiment_label := "positive"; Routes.user_id := 1 |};
    {| Routes.text := "fine"; Routes.sentiment_score := 0.2%float;
       Routes.sentiment_label := "positive"; Routes.user_id := 1 |} ].

(** What a provider that answers makes [analyze_with_external_api] return. *)
Definition good_answer : dict float :=
  [ ("text", PStr "hello"); ("provider", PStr "huggingface");
    ("sentiment", PStr "positive"); ("score", PFloat 0.9%float);
    ("confidence", PFloat 0.9%float) ].

End Samples.


(* ================================================================== *)
(** * routes/sentiment.py: the analysis endpoint *)
(* ================================================================== *)

Module SentimentRoute.
Import Py.
#[local] Existing Instance SentimentAnalyzer.float_score.

(** [class SentimentRequest(BaseModel)]; [provider] defaults to [None]. *)
Record SentimentRequest : Type := {
  text : string;
  provider : option string
}.

(** [fastapi.HTTPException], with its status code and its detail. *)
Inductive HTTPException : Type :=
| HTTP (status_code : Z) (detail : msg float).

(** What a call of the endpoint leaves: its response or the exception it
    raises, the table of analyses, and the state of the provider path. *)
Definition outcome : Type :=
  ((HTTPException + dict float) * Routes.table * ExternalApi.state)%type.

(** The value bound to the [Float] column of a row.  The provider path
    hands over a product of floats, and a scorer that keeps to its
    annotation [Dict[str, float]] a float.  What the database layer,
    which is not part of the repository, makes of any other value is not
    known: such a value is refused here, so that the endpoint is
    followed for float scores only. *)
Definition as_float (v : pyval float) : result float float :=
  match v with
  | PFloat x => ret x
  | _ => raise TypeError
  end.

(** The value stored in the [String] column of a row; the two branches
    only ever hand a string over. *)
Definition as_str (v : pyval float) : result float string :=
  match v with
  | PStr s => ret s
  | _ => raise TypeError
  end.

(** [models.Analysis(text=request.text, sentiment_score=...,
    sentiment_label=..., user_id=current_user.id)] *)
Definition new_analysis (request : SentimentRequest)
  (current_user : Routes.User) (sentiment_score : float)
  (sentiment_label : string) : Routes.Analysis :=
  {| Routes.text := text request;
     Routes.sentiment_score := sentiment_score;
     Routes.sentiment_label := sentiment_label;
     Routes.user_id := Routes.id current_user |}.

Section Endpoint.
(** The provider's side of the world, and the scorer of the local path. *)
Variable w : ExternalApi.world.
Variable polarity_scores : string -> result float (dict float).

(** [request.provider and request.provider != "local"] *)
Definition wants_external (request : SentimentRequest) : bool :=
  truthy (provider request) &&
  match provider request with
  | Some p => negb (String.eqb p "local")
  | None => false
  end.

(** The first branch of [analyze_sentiment], up to [db.add]: the result
    of the external API and the row built from it. *)
Definition external_branch (request : SentimentRequest)
  (current_user : Routes.User) (st : ExternalApi.state)
  : result float (dict float * Routes.Analysis) * ExternalApi.state :=
  let '(r, st) :=
    ExternalApi.analyze_with_external_api w (text request) (provider request) st in
  (res <- r ;;
   score <- getitem res "score" ;;
   sentiment_score <- as_float score ;;
   sentiment <- getitem res "sentiment" ;;
   sentiment_label <- as_str sentiment ;;
   ret (res, new_analysis request current_user sentiment_score sentiment_label),
   st).

(** [result["scores"]["compound"]] *)
Definition compound_of (res : dict float) : result float (pyval float) :=
  scores <- getitem res "scores" ;;
  ExternalApi.subscript scores "compound".

(** The second branch of [analyze_sentiment], up to [db.add]: the result
    of the local analyzer and the row built from it. *)
Definition local_branch (request : SentimentRequest)
  (current_user : Routes.User)
  : result float (dict float * Routes.Analysis) :=
  res <- SentimentAnalyzer.analyze_text polarity_scores (text request) ;;
  compound <- compound_of res ;;
  sentiment_score <- as_float compound ;;
  label <- getitem res "label" ;;
  sentiment_label <- as_str label ;;
  ret (res, new_analysis request current_user sentiment_score sentiment_label).

(** The dictionary the second branch returns, built after [db.commit]. *)
Definition local_response (request : SentimentRequest) (res : dict float)
  : result float (dict float) :=
  sentiment <- getitem res "label" ;;
  score <- compound_of res ;;
  compound <- compound_of res ;;
  confidence <- ExternalApi.py_abs compound ;;
  ret [ ("text", PStr (text request));
        ("sentiment", sentiment);
        ("score", score);
        ("confidence", confidence);
        ("provider", PStr "local") ].

(** The handler of [analyze_sentiment]: any exception becomes an
    [HTTPException] with status 500. *)
Definition internal_error (e : exn float) : HTTPException :=
  HTTP 500 (Prefixed "Error analyzing sentiment: " e).

(** [analyze_sentiment].  The session is the table itself: [db.add] and
    [db.commit] append the row and do not fail.  In either branch the row
    is added and committed before the response is returned; an exception
    raised before that leaves the table as it was. *)
Definition analyze_sentiment (request : SentimentRequest)
  (db : Routes.table) (current_user : Routes.User) (st : ExternalApi.state)
  : outcome :=
  if wants_external request then
    let '(r, st) := external_branch request current_user st in
    match r with
    | inr (res, db_analysis) => (inr res, (db ++ [db_analysis])%list, st)
    | inl e => (inl (internal_error e), db, st)
    end
  else
    match local_branch request current_user with
    | inr (res, db_analysis) =>
        match local_response request res with
        | inr response => (inr response, (db ++ [db_analysis])%list, st)
        | inl e => (inl (internal_error e), (db ++ [db_analysis])%list, st)
        end
    | inl e => (inl (internal_error e), db, st)
    end.

End Endpoint.

End SentimentRoute.


(* ================================================================== *)
(** * routes/auth.py: registration *)
(* ================================================================== *)

Module AuthRoutes.
Import Py.

(** Modelled from the spec: a row of [models.User] (the declaration of the
    model is missing), the identity the authentication collaborator keeps,
    with the two columns [register_user] queries. *)
Record Account : Type := {
  username : string;
  email : string
}.

(** Modelled from the spec: the body of a registration request,
    [auth.UserCreate] (its declaration is missing), with the three fields
    a registration carries. *)
Record UserCreate : Type := {
  new_username : string;
  new_email : string;
  password : string
}.

(** [db.query(User).filter(column == v).first()]: the first row found. *)
Definition first_where (p : Account -> bool) (db : list Account)
  : option Account :=
  find p db.

Section Register.
(** [auth.create_user], whose code is missing: it is given the session
    and the request, and its result is what [register_user] returns. *)
Variable Created : Type.
Variable create_user : list Account -> UserCreate -> Created.

(** [register_user] *)
Definition register_user (user : UserCreate) (db : list Account)
  : SentimentRoute.HTTPException + Created :=
  let db_user :=
    first_where (fun a => String.eqb (username a) (new_username user)) db in
  match db_user with
  | Some _ =>
      inl (SentimentRoute.HTTP 400 (Text "Username already registered"))
  | None =>
      let db_email :=
        first_where (fun a => String.eqb (email a) (new_email user)) db in
      match db_email with
      | Some _ =>
          inl (SentimentRoute.HTTP 400 (Text "Email already registered"))
      | None => inr (create_user db user)
      end
  end.

End Register.

End AuthRoutes.


(* ================================================================== *)
(** * The order of the labels *)
(* ================================================================== *)

Module LabelOrder.

(** The labels from the most negative to the most positive. *)
Definition label_rank (l : SentimentAnalyzer.SentimentLabel) : nat :=
  match l with
  | SentimentAnalyzer.NEGATIVE => 0
  | SentimentAnalyzer.NEUTRAL => 1
  | SentimentAnalyzer.POSITIVE => 2
  end.

End LabelOrder.


(* ================================================================== *)
(** * More concrete data for the examples *)
(* ================================================================== *)

Module Scenarios.
Import Py.

(** A scorer that gives every text the same scores. *)
Definition steady_scorer (_ : string) : result float (dict float) :=
  inr [ ("neg", PFloat 0%float); ("neu", PFloat 0.5%float);
        ("pos", PFloat 0.5%float); ("compound", PFloat 0.6%float) ].

(** A scorer whose result has no compound score. *)
Definition broken_scorer (_ : string) : result float (dict float) :=
  inr [ ("neg", PFloat 0%float); ("neu", PFloat 1%float);
        ("pos", PFloat 0%float) ].

(** No API key in the environment. *)
Definition no_key_world : ExternalApi.world :=
  {| ExternalApi.HUGGINGFACE_API_KEY := None;
     ExternalApi.post := fun _ => ExternalApi.Raises "unreachable" |}.

(** A provider that refuses every request with status 503. *)
Definition refusing_world : ExternalApi.world :=
  {| ExternalApi.HUGGINGFACE_API_KEY := Some "hf_key";
     ExternalApi.post := fun _ =>
       ExternalApi.Response 503 "Service Unavailable"
         (inl (RequestException "Expecting value: line 1 column 1 (char 0)")) |}.

(** A provider whose label is a number. *)
Definition malformed_body : pyval float :=
  PList [PDict [("label", PInt 1); ("score", PFloat 0.9%float)]].

Definition malformed_world : ExternalApi.world :=
  {| ExternalApi.HUGGINGFACE_API_KEY := Some "hf_key";
     ExternalApi.post := fun _ =>
       ExternalApi.Response 200 "[{...}]" (inr malformed_body) |}.

(** A provider whose body is nested too deeply for the decoder:
    [response.json()] raises [RecursionError]. *)
Definition deep_world : ExternalApi.world :=
  {| ExternalApi.HUGGINGFACE_API_KEY := Some "hf_key";
     ExternalApi.post := fun _ =>
       ExternalApi.Response 200 "[[[[...]]]]" (inl RecursionError) |}.

(** A verdict without a score. *)
Definition bare_verdict : dict float := [ ("label", PStr "NEGATIVE") ].

(** Requests for the local analyzer and for the external API. *)
Definition local_request : SentimentRoute.SentimentRequest :=
  {| SentimentRoute.text := "hello"; SentimentRoute.provider := None |}.

Definition external_request : SentimentRoute.SentimentRequest :=
  {| SentimentRoute.text := "hello"; SentimentRoute.provider := Some "LOCAL" |}.

(** The user with id 2. *)
Definition bob : Routes.User := {| Routes.id := 2; Routes.username := "bob" |}.

End Scenarios.


(* ================================================================== *)
(** * Facts about binary64 arithmetic *)
(* ================================================================== *)

Module FloatFacts.
Import FloatSpec.
#[local] Open Scope float_scope.

(** Rounding keeps the sign it is given. *)
Lemma binary_round_aux_signed (s : bool) (m e : Z) (l : location) :
  signed s (binary_round_aux prec emax s m e l).
Proof.
  unfold binary_round_aux.
  destruct (shr_fexp prec emax m e l) as [mrs' e'].
  destruct (shr_fexp prec emax _ e' loc_Exact) as [mrs'' e''].
  destruct (shr_m mrs''); [reflexivity| |exact I].
  destruct (Z.leb e'' _); reflexivity.
Qed.

(** So does rounding after alignment. *)
Lemma binary_round_signed (s : bool) (m : positive) (e : Z) :
  signed s (binary_round prec emax s m e).
Proof.
  unfold binary_round.
  destruct (shl_align m e _) as [mz ez].
  apply binary_round_aux_signed.
Qed.

(** The float nearest to a non-negative integer is not negative. *)
Lemma binary_normalize_signed (z e : Z) :
  (0 <= z)%Z -> signed false (binary_normalize prec emax z e false).
Proof.
  intros Hz. destruct z as [|p|p]; [reflexivity| |lia].
  apply binary_round_signed.
Qed.

(** Multiplication by a finite float of sign [t]. *)
Lemma mul_finite_signed (s t : bool) (x : spec_float) (m : positive) (e : Z) :
  signed s x -> signed (xorb s t) (SF64mul x (S754_finite t m e)).
Proof.
  destruct x as [s'|s'| |s' m' e']; cbv beta iota delta [signed SF64mul SFmul];
    intros H; subst; try reflexivity; try exact I.
  apply binary_round_aux_signed.
Qed.

(** Multiplication by zero: a zero, unless the other factor is infinite. *)
Lemma mul_zero_signed (x : spec_float) :
  signed false x ->
  SF64mul x (S754_zero false) = S754_nan \/
  SF64mul x (S754_zero false) = S754_zero false.
Proof.
  destruct x as [s'|s'| |s' m' e']; cbv beta iota delta [signed SF64mul SFmul];
    intros H; subst; auto.
Qed.

(** ** Primitive floats *)

Lemma spec_constants :
  Prim2SF 1 = S754_finite false 4503599627370496 (-52) /\
  Prim2SF (-1) = S754_finite true 4503599627370496 (-52) /\
  Prim2SF 0 = S754_zero false /\
  Prim2SF nan = S754_nan.
Proof. repeat split; vm_compute; reflexivity. Qed.

(** A float is determined by its specification. *)
Lemma nan_of_spec (x : float) : Prim2SF x = S754_nan -> x = nan.
Proof.
  intros H. apply Prim2SF_inj. rewrite H.
  symmetry. apply spec_constants.
Qed.

Lemma zero_of_spec (x : float) : Prim2SF x = S754_zero false -> x = 0.
Proof.
  intros H. apply Prim2SF_inj. rewrite H.
  symmetry. apply spec_constants.
Qed.

(** [abs] returns NaN or a float that is not negative. *)
Lemma abs_absolute (x : float) : absolute (abs x).
Proof.
  unfold absolute. rewrite abs_spec.
  destruct (Prim2SF x); cbv beta iota delta [SFabs signed]; auto.
Qed.

(** Scaling by a power of two keeps the sign. *)
Lemma SFldexp_signed (s : bool) (x : spec_float) (e : Z) :
  signed s x -> signed s (SFldexp prec emax x e).
Proof.
  destruct x as [s'|s'| |s' m' e']; cbv beta iota delta [SFldexp]; auto.
  cbv beta iota delta [signed]. intros ->. apply binary_round_signed.
Qed.

(** The primitive float built from a specification that is not negative. *)
Lemma SF2Prim_absolute (y : spec_float) :
  signed false y -> absolute (SF2Prim y).
Proof.
  unfold absolute.
  destruct y as [s'|s'| |s' m' e']; cbv beta iota delta [signed]; intros H;
    try subst s'.
  - replace (SF2Prim (S754_zero false)) with 0 by reflexivity.
    destruct spec_constants as (_ & _ & -> & _). reflexivity.
  - replace (SF2Prim (S754_infinity false)) with infinity by reflexivity.
    replace (Prim2SF infinity) with (S754_infinity false)
      by (vm_compute; reflexivity).
    reflexivity.
  - replace (SF2Prim S754_nan) with nan by reflexivity.
    destruct spec_constants as (_ & _ & _ & ->). exact I.
  - cbv beta iota zeta delta [SF2Prim Z.ldexp].
    rewrite ldshiftexp_spec.
    apply SFldexp_signed.
    rewrite of_uint63_spec.
    apply binary_normalize_signed.
    apply Uint63.to_Z_bounded.
Qed.

(** The sign of a specification, read as a comparison with zero. *)
Lemma nonneg_of_signed (x : float) :
  signed false (Prim2SF x) -> x = nan \/ (0 <=? x) = true.
Proof.
  intros H. rewrite leb_spec.
  destruct spec_constants as (_ & _ & -> & _).
  destruct (Prim2SF x) as [s'|s'| |s' m' e'] eqn:E;
    cbv beta iota delta [signed] in H; try subst s';
    try (right; reflexivity).
  left. apply nan_of_spec. exact E.
Qed.

Lemma nonpos_of_signed (x : float) :
  signed true (Prim2SF x) -> x = nan \/ (x <=? 0) = true.
Proof.
  intros H. rewrite leb_spec.
  destruct spec_constants as (_ & _ & -> & _).
  destruct (Prim2SF x) as [s'|s'| |s' m' e'] eqn:E;
    cbv beta iota delta [signed] in H; try subst s';
    try (right; reflexivity).
  left. apply nan_of_spec. exact E.
Qed.

(** The three products that [analyze_with_huggingface] forms. *)
Lemma mul_one_nonneg (a : float) :
  absolute a -> a * 1 = nan \/ (0 <=? a * 1) = true.
Proof.
  intros H. apply nonneg_of_signed. rewrite mul_spec.
  destruct spec_constants as (-> & _).
  apply (mul_finite_signed false false). exact H.
Qed.

Lemma mul_minus_one_nonpos (a : float) :
  absolute a -> a * -1 = nan \/ (a * -1 <=? 0) = true.
Proof.
  intros H. apply nonpos_of_signed. rewrite mul_spec.
  destruct spec_constants as (_ & -> & _).
  apply (mul_finite_signed false true). exact H.
Qed.

Lemma mul_zero_null (a : float) :
  absolute a -> a * 0 = nan \/ a * 0 = 0.
Proof.
  intros H.
  pose proof (mul_zero_signed (Prim2SF a) H) as M.
  destruct spec_constants as (_ & _ & Z0 & _).
  rewrite <- Z0, <- mul_spec in M. rewrite Z0 in M.
  destruct M as [M|M]; [left; apply nan_of_spec|right; apply zero_of_spec];
    exact M.
Qed.
End FloatFacts.


(* ================================================================== *)
(** * Properties of the label thresholds *)
(* ================================================================== *)

Module LabelFacts.
Import Py SentimentAnalyzer.
#[local] Open Scope float_scope.

(** The two thresholds, as the specification of binary64 reads them. *)
Lemma threshold_spec :
  Prim2SF 0.05 = S754_finite false 7205759403792794 (-57) /\
  Prim2SF (-0.05) = S754_finite true 7205759403792794 (-57).
Proof. split; vm_compute; reflexivity. Qed.

(** No float is both at least 0.05 and at most -0.05 (NaN is neither). *)
Lemma thresholds_disjoint (c : float) :
  (0.05 <=? c) = true -> (c <=? -0.05) = false.
Proof.
  destruct threshold_spec as [P N].
  rewrite (leb_spec 0.05 c), (leb_spec c (-0.05)), P, N.
  destruct (Prim2SF c) as [[|]|[|]| |[|] m e];
    cbv beta iota delta [SFleb SFcompare];
    solve [discriminate | reflexivity].
Qed.

(** C2: on binary64 scores, [get_sentiment_label] returns POSITIVE exactly
    when the score is at least 0.05, NEGATIVE exactly when it is at most
    -0.05, and NEUTRAL exactly when it is neither (NaN included); it maps
    0.05 to POSITIVE, -0.05 to NEGATIVE and 0.0 to NEUTRAL. *)
Theorem get_sentiment_label_thresholds (c : float) :
  (get_sentiment_label c = POSITIVE <-> (0.05 <=? c) = true) /\
  (get_sentiment_label c = NEGATIVE <-> (c <=? -0.05) = true) /\
  (get_sentiment_label c = NEUTRAL <->
     (0.05 <=? c) = false /\ (c <=? -0.05) = false) /\
  get_sentiment_label 0.05 = POSITIVE /\
  get_sentiment_label (-0.05) = NEGATIVE /\
  get_sentiment_label 0.0 = NEUTRAL.
Proof.
  pose proof (thresholds_disjoint c) as D.
  cbv beta iota delta [get_sentiment_label ge le of_literal float_score].
  split; [|split; [|split; [|repeat split; vm_compute; reflexivity]]];
    destruct (0.05 <=? c); destruct (c <=? -0.05);
    try specialize (D eq_refl);
    split; intros; try discriminate; try reflexivity; try (split; reflexivity);
    match goal with H : _ /\ _ |- _ => destruct H; discriminate end.
Qed.

End LabelFacts.


(* ================================================================== *)
(** * Properties of the analyzer on the lexicon scorer *)
(* ================================================================== *)

Module VaderFacts.
Import Py SentimentAnalyzer Vader Samples.
#[local] Open Scope R_scope.

(** ** The normalisation formula *)

Lemma sqrt_dominates (x : R) : Rabs x < R_sqrt.sqrt (x * x + alpha).
Proof.
  rewrite <- (sqrt_Rsqr_abs x).
  apply sqrt_lt_1.
  - apply Rle_0_sqr.
  - unfold alpha. pose proof (Rle_0_sqr x) as Hx. unfold Rsqr in Hx. lra.
  - unfold Rsqr, alpha. lra.
Qed.

(** The normalisation maps every sum strictly between -1 and 1. *)
Lemma squash_bounded (x : R) : -1 < x / R_sqrt.sqrt (x * x + alpha) < 1.
Proof.
  pose proof (sqrt_dominates x) as Hs.
  pose proof (Rabs_pos x) as Hp.
  set (s := R_sqrt.sqrt (x * x + alpha)) in *.
  assert (0 < s) by lra.
  assert (Hx : - s < x < s).
  { unfold Rabs in Hs. destruct (Rcase_abs x); lra. }
  split.
  - apply Rmult_lt_reg_r with s; [assumption|].
    unfold Rdiv. rewrite Rmult_assoc, Rinv_l by lra. lra.
  - apply Rmult_lt_reg_r with s; [assumption|].
    unfold Rdiv. rewrite Rmult_assoc, Rinv_l by lra. lra.
Qed.

(** The compound score of [normalize], guarded case included. *)
Lemma normalize_compound_bounded (acc : ScoreAccumulator) :
  -1 <= compound (normalize acc) <= 1.
Proof.
  unfold normalize.
  destruct (Req_dec_T _ 0); cbn [compound].
  - lra.
  - pose proof (squash_bounded (positive_sum acc + negative_sum acc)). lra.
Qed.

(** ** Rounding *)

Lemma round_half_even_close (x : R) :
  - (1 / 2) <= IZR (round_half_even x) - x <= 1 / 2.
Proof.
  unfold round_half_even.
  pose proof (Zfloor_bound x) as [Hl Hu].
  set (n := Zfloor x) in *.
  assert (E : IZR (n + 1) = IZR n + 1) by (rewrite plus_IZR; reflexivity).
  destruct (Rlt_dec (x - IZR n) (1 / 2));
    [| destruct (Rlt_dec (1 / 2) (x - IZR n)); [| destruct (Z.even n)]];
    rewrite ?E; lra.
Qed.

(** Rounding to three decimals moves a number by 0.0005 at most. *)
Lemma round3_close (x : R) : Rabs (round3 x - x) <= 1 / 2000.
Proof.
  unfold round3.
  pose proof (round_half_even_close (x * 1000)) as H.
  apply Rabs_le. lra.
Qed.

(** Three roundings of parts of a whole miss the whole by one unit of the
    last place at most: the sum is a multiple of 0.001. *)
Lemma round3_sum (a b c : R) :
  a + b + c = 1 ->
  round3 a + round3 b + round3 c = 0.999 \/
  round3 a + round3 b + round3 c = 1 \/
  round3 a + round3 b + round3 c = 1.001.
Proof.
  intros Hsum. unfold round3.
  pose proof (round_half_even_close (a * 1000)) as Ha.
  pose proof (round_half_even_close (b * 1000)) as Hb.
  pose proof (round_half_even_close (c * 1000)) as Hc.
  set (ka := round_half_even (a * 1000)) in *.
  set (kb := round_half_even (b * 1000)) in *.
  set (kc := round_half_even (c * 1000)) in *.
  assert (Hk : (999 <= ka + kb + kc <= 1001)%Z).
  { split.
    - assert (998 < ka + kb + kc)%Z; [|lia].
      apply lt_IZR. rewrite !plus_IZR. lra.
    - assert (ka + kb + kc < 1002)%Z; [|lia].
      apply lt_IZR. rewrite !plus_IZR. lra. }
  assert (Hc3 : (ka + kb + kc = 999 \/ ka + kb + kc = 1000
                 \/ ka + kb + kc = 1001)%Z) by lia.
  destruct Hc3 as [E|[E|E]]; apply (f_equal IZR) in E;
    rewrite !plus_IZR in E; [left|right; left|right; right]; lra.
Qed.

(** The proportions of [normalize]: all zero in the guarded case, and
    three roundings of parts of a whole otherwise. *)
Lemma normalize_proportions (acc : ScoreAccumulator) :
  let r := normalize acc in
  (positive r = 0 /\ negative r = 0 /\ neutral r = 0) \/
  positive r + negative r + neutral r = 0.999 \/
  positive r + negative r + neutral r = 1 \/
  positive r + negative r + neutral r = 1.001.
Proof.
  unfold normalize.
  destruct (Req_dec_T _ 0) as [E|NE]; cbn [positive negative neutral].
  - left. repeat split; reflexivity.
  - right. apply round3_sum.
    unfold Rdiv. rewrite <- !Rmult_plus_distr_r.
    apply Rinv_r. exact NE.
Qed.

(** ** The service running on the scorer *)

Section OnLexicon.
Variable lookup : string -> option R.
Variables isBooster isDampener isNegator : string -> bool.
Variable caps_delta : R.
Variable punctuation_bonus : nat -> R.

(** The scorer and the service's [analyze] on this lexicon. *)
Local Abbreviation spec :=
  (analyze_spec lookup isBooster isDampener isNegator caps_delta punctuation_bonus).
Local Abbreviation analyze :=
  (Vader.analyze lookup isBooster isDampener isNegator caps_delta punctuation_bonus).

(** [analyze] repackages the four scores and adds the label and the text. *)
Lemma analyze_eq (t : string) :
  analyze t =
  inr [ ("scores", PDict [ ("positive", PFloat (positive (spec t)));
                           ("negative", PFloat (negative (spec t)));
                           ("neutral", PFloat (neutral (spec t)));
                           ("compound", PFloat (compound (spec t))) ]);
        ("label", PStr (label_value (get_sentiment_label (compound (spec t)))));
        ("text", PStr t) ].
Proof. reflexivity. Qed.

(** The thresholds, read as real numbers, lie on either side of zero. *)
Lemma real_thresholds :
  0 < SentimentAnalyzer.float_to_R 0.05%float /\
  SentimentAnalyzer.float_to_R (-0.05)%float < 0.
Proof.
  destruct LabelFacts.threshold_spec as [P N].
  unfold float_to_R. rewrite P, N.
  pose proof (powerRZ_lt 2 (-57) ltac:(lra)) as Hp.
  assert (Hm : 0 < IZR 7205759403792794) by (apply IZR_lt; reflexivity).
  pose proof (Rmult_lt_0_compat _ _ Hm Hp).
  split; lra.
Qed.

(** The label that [get_sentiment_label] gives the score 0. *)
Lemma label_of_zero : get_sentiment_label (0 : R) = SentimentAnalyzer.NEUTRAL.
Proof.
  destruct real_thresholds as [P N].
  unfold get_sentiment_label, ge, le, of_literal, real_score.
  destruct (Rle_dec _ 0); [lra|].
  destruct (Rle_dec 0 _); [lra|]. reflexivity.
Qed.

(** The scorer on the empty text: no token, and the guarded result. *)
Lemma spec_empty :
  spec "" =
  {| positive := 0; negative := 0; neutral := 0; compound := 0;
     label := SentimentAnalyzer.NEUTRAL |}.
Proof.
  unfold analyze_spec.
  change (tokenize "") with (@nil Token).
  change (score lookup isBooster isDampener isNegator caps_delta punctuation_bonus [])
    with empty_accumulator.
  unfold normalize, empty_accumulator;
    cbn [positive_sum negative_sum neutral_count positive_count negative_count].
  destruct (Req_dec_T _ 0) as [E|NE]; [reflexivity|].
  exfalso; apply NE. rewrite Rabs_R0. cbn [INR]. lra.
Qed.

(** What [analyze] returns on the empty text. *)
Lemma analyze_empty :
  analyze "" =
  inr [ ("scores", PDict [ ("positive", PFloat 0); ("negative", PFloat 0);
                           ("neutral", PFloat 0); ("compound", PFloat 0) ]);
        ("label", PStr "neutral");
        ("text", PStr "") ].
Proof.
  rewrite analyze_eq, spec_empty; cbn [positive negative neutral compound].
  rewrite label_of_zero. reflexivity.
Qed.

(** C1: whatever the lexicon and the text, the compound score in the
    result of [analyze] lies between -1 and 1. *)
Theorem analyze_compound_in_range (t : string) :
  exists (r : dict R) (c : R),
    analyze t = inr r /\ score_of r "compound" = Some c /\ -1 <= c <= 1.
Proof.
  eexists; eexists. split; [apply analyze_eq|]. split; [reflexivity|].
  apply normalize_compound_bounded.
Qed.



End OnLexicon.

(** ** A text on the sample lexicon *)

Lemma clip_inside (v : R) : - max_valence <= v <= max_valence -> clip v = v.
Proof.
  intros [Hl Hu]. unfold clip.
  rewrite (Rmin_right max_valence v Hu).
  apply Rmax_right. exact Hl.
Qed.

(** The four tokens of the text. *)
Lemma tokens_great_bad_bad_it :
  tokenize "great bad bad it" =
  [ {| text := "great"; normalized := "great"; position := 0 |};
    {| text := "bad"; normalized := "bad"; position := 1 |};
    {| text := "bad"; normalized := "bad"; position := 2 |};
    {| text := "it"; normalized := "it"; position := 3 |} ].
Proof. vm_compute. reflexivity. Qed.

(** Its accumulator: one positive word, two negative ones, one neutral. *)
Lemma score_great_bad_bad_it :
  sample_score (tokenize "great bad bad it") =
  {| positive_sum := 0 + 3.1; negative_sum := 0 + -2.5 + -2.5;
     neutral_count := 1; positive_count := 1; negative_count := 2 |}.
Proof.
  rewrite tokens_great_bad_bad_it.
  unfold sample_score, score.
  cbv beta iota zeta delta
    [valences valence apply_caps apply_context emphasis_pass boost_nearest
     sample_lookup no_word all_caps is_emphasis_run classify
     existsb negb andb orb map firstn rev app text normalized position
     list_ascii_of_string is_upper_char is_lower_char nat_of_ascii
     String.eqb Ascii.eqb Bool.eqb fold_left
     Nat.leb Nat.eqb N_of_ascii N_of_digits N.to_nat N.add N.mul Pos.to_nat
     Pos.iter_op Pos.add Pos.succ Nat.add Pos.mul snd fst].
  rewrite !clip_inside by (unfold max_valence; lra).
  unfold accumulate, empty_accumulator;
    cbn [snd positive_sum negative_sum neutral_count positive_count negative_count].
  destruct (Rlt_dec 0 3.1) as [_|F]; [|exfalso; apply F; lra].
  cbn [snd positive_sum negative_sum neutral_count positive_count negative_count].
  destruct (Rlt_dec 0 (-2.5)) as [F|_]; [exfalso; lra|].
  destruct (Rlt_dec (-2.5) 0) as [_|F]; [|exfalso; apply F; lra].
  reflexivity.
Qed.

(** Rounding a number that is not a tie. *)
Lemma round_half_even_eq (x : R) (k : Z) :
  IZR k - 1 / 2 < x < IZR k + 1 / 2 -> round_half_even x = k.
Proof.
  intros [Hl Hu]. unfold round_half_even.
  destruct (Rle_dec (IZR k) x) as [Hk|Hk].
  - rewrite (Zfloor_eq k x) by lra.
    destruct (Rlt_dec (x - IZR k) (1 / 2)); [reflexivity|lra].
  - assert (E : IZR (k - 1) = IZR k - 1) by (rewrite minus_IZR; reflexivity).
    rewrite (Zfloor_eq (k - 1) x) by (rewrite E; lra).
    rewrite E.
    destruct (Rlt_dec (x - (IZR k - 1)) (1 / 2)); [lra|].
    destruct (Rlt_dec (1 / 2) (x - (IZR k - 1))); [lia|lra].
Qed.

Lemma round3_eq (x : R) (k : Z) :
  IZR k - 1 / 2 < x * 1000 < IZR k + 1 / 2 -> round3 x = IZR k / 1000.
Proof. intros H. unfold round3. rewrite (round_half_even_eq _ k H). reflexivity. Qed.

(** The three proportions: 4.1, 7 and 1 over 12.1, rounded. *)
Lemma spec_great_bad_bad_it :
  let r := analyze_spec sample_lookup no_word no_word no_word
             sample_caps_delta sample_punctuation_bonus "great bad bad it" in
  positive r = 0.339 /\ negative r = 0.579 /\ neutral r = 0.083.
Proof.
  cbv zeta. unfold analyze_spec.
  change (score sample_lookup no_word no_word no_word
            sample_caps_delta sample_punctuation_bonus) with sample_score.
  rewrite score_great_bad_bad_it.
  unfold normalize;
    cbn [positive_sum negative_sum neutral_count positive_count negative_count].
  assert (A : Rabs (0 + -2.5 + -2.5) = 5).
  { rewrite Rabs_left by lra. lra. }
  rewrite A. cbn [INR].
  destruct (Req_dec_T _ 0) as [E|_]; [exfalso; lra|].
  cbn [positive negative neutral].
  repeat split.
  - rewrite (round3_eq _ 339) by (split; lra). lra.
  - rewrite (round3_eq _ 579) by (split; lra). lra.
  - rewrite (round3_eq _ 83) by (split; lra). lra.
Qed.



End VaderFacts.


(* ================================================================== *)
(** * Properties of the external provider path *)
(* ================================================================== *)

Module ExternalApiFacts.
Import Py ExternalApi FloatSpec FloatFacts.
#[local] Open Scope float_scope.

(** [float(n)] overflows or is the float nearest to [n]. *)
Lemma float_of_int_cases (z : Z) :
  float_of_int z = inl OverflowError \/
  float_of_int z = inr (SF2Prim (binary_normalize prec emax z 0 false)).
Proof.
  unfold float_of_int.
  destruct (binary_normalize prec emax z 0 false); auto.
Qed.

Lemma float_of_int_absolute (z : Z) (a : float) :
  (0 <= z)%Z -> float_of_int z = inr a -> absolute a.
Proof.
  intros Hz Ha.
  destruct (float_of_int_cases z) as [E|E]; rewrite E in Ha;
    [discriminate|].
  injection Ha as <-.
  apply SF2Prim_absolute, binary_normalize_signed, Hz.
Qed.

(** [abs(score) * score_sign]: the product of a float that is NaN or not
    negative with the sign. *)
Lemma abs_then_mul (v a' : value) (sign s : float) :
  py_abs v = inr a' -> py_mul_float a' sign = inr s ->
  exists a, s = a * sign /\ absolute a.
Proof.
  destruct v as [ |b|z|x|str|l|d]; cbv beta iota delta [py_abs ret raise];
    intros Ha; try discriminate; injection Ha as <-;
    cbv beta iota delta [py_mul_float ret bind].
  - destruct (float_of_int _) as [e|a] eqn:E; intros Hs; [discriminate|].
    injection Hs as <-. exists a. split; [reflexivity|].
    assert (Hb : (0 <= (if b then 1 else 0))%Z) by (destruct b; lia).
    apply (float_of_int_absolute _ _ Hb E).
  - destruct (float_of_int _) as [e|a] eqn:E; intros Hs; [discriminate|].
    injection Hs as <-. exists a. split; [reflexivity|].
    apply (float_of_int_absolute _ _ (Z.abs_nonneg z) E).
  - intros Hs. injection Hs as <-. exists (abs x). split; [reflexivity|].
    apply abs_absolute.
Qed.

(** What [parse_response] returns when it returns. *)
Lemma parse_response_ok (text : string) (body : value) (res : SentimentResult) :
  parse_response text body = inr res ->
  exists sentiment a sign raw,
    res = make_SentimentResult HUGGINGFACE text sentiment (a * sign) raw /\
    absolute a /\ verdict sentiment sign.
Proof.
  unfold parse_response.
  set (result := match body with PList (first :: _) => first | _ => body end).
  clearbody result.
  destruct (label_in result) as [e|[|]];
    cbv beta iota delta [bind raise]; try discriminate.
  destruct (subscript result "label") as [e|l]; [discriminate|].
  destruct (str_lower l) as [e|sentiment]; [discriminate|].
  destruct (get_score result) as [e|score]; [discriminate|].
  destruct (String.eqb sentiment "positive");
    [|destruct (String.eqb sentiment "negative")];
    destruct (py_abs score) as [e|a'] eqn:A; try discriminate;
    destruct (py_mul_float a' _) as [e|s] eqn:M; try discriminate;
    destruct (abs_then_mul _ _ _ _ A M) as (a & -> & Ha);
    cbv beta iota delta [ret]; intros R; injection R as <-;
    do 4 eexists; (split; [reflexivity|]); (split; [exact Ha|]);
    unfold verdict; auto.
Qed.

Section Runs.
Variable w : world.

(** A value returned by the retry loop was returned by one of the tries. *)
Lemma retry_success {A} (remaining n : nat) (target : M A)
  (st st' : state) (a : A) :
  retry_exception remaining n target st = (inr a, st') ->
  exists st0, target st0 = (inr a, st').
Proof.
  revert n st. induction remaining as [|k IH]; intros n st;
    cbn [retry_exception]; destruct (target st) as [[e|a'] st1] eqn:T.
  - destruct (retryable e); discriminate.
  - intros R. injection R as <- <-. eauto.
  - destruct (retryable e); [apply IH|discriminate].
  - intros R. injection R as <- <-. eauto.
Qed.

(** A value returned by a try comes from a decoded body. *)
Lemma once_success (text : string) (st st' : state) (res : SentimentResult) :
  huggingface_once w text st = (inr res, st') ->
  exists body, parse_response text body = inr res.
Proof.
  unfold huggingface_once.
  destruct (negb (truthy _)); [discriminate|].
  destruct (post w _) as [m|status body json]; [discriminate|].
  destruct (negb _); [discriminate|].
  destruct json as [e|decoded]; [destruct e; discriminate|].
  intros R. injection R as R _. eauto.
Qed.

Lemma analyze_success (text : string) (p : option string)
  (st st' : state) (res : SentimentResult) :
  analyze w text p st = (inr res, st') ->
  exists body, parse_response text body = inr res.
Proof.
  unfold analyze.
  destruct (match p with Some _ => _ | None => _ end); [discriminate|].
  destruct (truthy _); [|discriminate].
  destruct (analyze_with_huggingface w text st) as [[e|res'] st1] eqn:R.
  - destruct e; discriminate.
  - intros E. injection E as <- <-.
    apply retry_success in R. destruct R as [st0 R].
    apply once_success in R. exact R.
Qed.

(** What [analyze_with_external_api] returns when it returns. *)
Lemma external_success (text : string) (provider : option string)
  (st : state) (r : SentimentResult) :
  fst (analyze_with_external_api w text provider st) = inr r ->
  exists sentiment a sign,
    r = [ ("text", PStr text);
          ("provider", PStr HUGGINGFACE);
          ("sentiment", PStr sentiment);
          ("score", PFloat (a * sign));
          ("confidence", PFloat (abs (a * sign))) ] /\
    absolute a /\ verdict sentiment sign.
Proof.
  unfold analyze_with_external_api, after_conversion.
  destruct (convert_provider provider st) as [api_provider st1].
  destruct (analyze w text api_provider st1) as [[e|res] st2] eqn:A;
    cbv beta iota delta [bind]; [discriminate|].
  apply analyze_success in A. destruct A as [body P].
  apply parse_response_ok in P.
  destruct P as (sentiment & a & sign & raw & -> & Ha & V).
  replace (response_of text (make_SentimentResult HUGGINGFACE text sentiment (a * sign) raw))
    with (@inr error SentimentResult
            [ ("text", PStr text);
              ("provider", PStr HUGGINGFACE);
              ("sentiment", PStr sentiment);
              ("score", PFloat (a * sign));
              ("confidence", PFloat (abs (a * sign))) ])
    by reflexivity.
  cbv beta iota delta [fst ret]. intros R. injection R as <-.
  exists sentiment, a, sign. auto.
Qed.

(** ** The retry loop *)

(** One try enters the body once and takes no pause. *)
Lemma once_effects (text : string) (st : state) :
  attempts (snd (huggingface_once w text st)) = S (attempts st) /\
  sleeps (snd (huggingface_once w text st)) = sleeps st.
Proof.
  unfold huggingface_once.
  destruct (negb (truthy _)); [split; reflexivity|].
  destruct (post w _) as [m|status body json]; [split; reflexivity|].
  destruct (negb _); [split; reflexivity|].
  destruct json as [[]|]; split; reflexivity.
Qed.

(** C6: when every try of the HuggingFace call fails with an error the
    decorator retries on, [analyze_with_huggingface] enters the body three
    times, pauses after the first and the second failure with waits drawn
    from the exponential sequence 1, 2, and then hands the error of the
    third try to its caller. *)
Theorem analyze_with_huggingface_gives_up (text : string) (st : state) :
  (forall st0, exists e,
      fst (huggingface_once w text st0) = inl e /\ retryable e = true) ->
  exists e st3,
    analyze_with_huggingface w text st = (inl e, snd (huggingface_once w text st3)) /\
    fst (huggingface_once w text st3) = inl e /\
    retryable e = true /\
    attempts (snd (analyze_with_huggingface w text st)) = (attempts st + 3)%nat /\
    sleeps (snd (analyze_with_huggingface w text st)) = (sleeps st ++ [expo 0; expo 1])%list /\
    expo 0 = 1%nat /\ expo 1 = 2%nat.
Proof.
  intros Fail.
  unfold analyze_with_huggingface, max_tries. cbn [Nat.pred retry_exception].
  pose proof (once_effects text st) as [A1 S1].
  destruct (Fail st) as (e1 & F1 & R1).
  destruct (huggingface_once w text st) as [r1 st1]; cbn [fst snd] in *.
  subst r1. rewrite R1.
  pose proof (once_effects text (sleep (expo 0) st1)) as [A2 S2].
  destruct (Fail (sleep (expo 0) st1)) as (e2 & F2 & R2).
  destruct (huggingface_once w text (sleep (expo 0) st1)) as [r2 st2];
    cbn [fst snd] in *.
  subst r2. rewrite R2.
  pose proof (once_effects text (sleep (expo 1) st2)) as [A3 S3].
  destruct (Fail (sleep (expo 1) st2)) as (e3 & F3 & R3).
  exists e3, (sleep (expo 1) st2).
  destruct (huggingface_once w text (sleep (expo 1) st2)) as [r3 st3];
    cbn [fst snd] in *.
  subst r3. rewrite R3. cbn [fst snd].
  repeat split.
  - rewrite A3. cbn [sleep attempts]. rewrite A2. cbn [sleep attempts]. lia.
  - rewrite S3. cbn [sleep sleeps]. rewrite S2. cbn [sleep sleeps].
    rewrite S1, <- app_assoc. reflexivity.
Qed.

(** ** The provider name *)

Lemma once_log_blind (text : string) : log_blind (huggingface_once w text).
Proof.
  intros [a1 p1 z1 l1] [a2 p2 z2 l2] (Ha & Hp & Hz).
  cbn [attempts posts sleeps] in Ha, Hp, Hz. subst a2 p2 z2.
  unfold huggingface_once, enter_attempt, sent, logged;
    cbn [attempts posts sleeps log].
  destruct (negb (truthy _)); [repeat split|].
  destruct (post w p1) as [m|status body json]; [repeat split|].
  destruct (negb _); [repeat split|].
  destruct json as [[]|]; repeat split.
Qed.

(** The log decides nothing in a try, in the loop, nor in [analyze]. *)
Lemma retry_log_blind {A} (remaining n : nat) (target : M A) :
  log_blind target -> log_blind (retry_exception remaining n target).
Proof.
  intros T. revert n. induction remaining as [|k IH]; intros n s1 s2 E;
    cbn [retry_exception]; destruct (T s1 s2 E) as [R S];
    destruct (target s1) as [[e1|a1] t1], (target s2) as [[e2|a2] t2];
    cbn [fst snd] in R, S; try discriminate R; injection R as <-;
    try (split; [reflexivity|exact S]).
  - destruct (retryable e1); split; try reflexivity; exact S.
  - destruct (retryable e1); [|split; [reflexivity|exact S]].
    apply IH. destruct S as (Sa & Sp & Sz).
    unfold same_effects, sleep; cbn [attempts posts sleeps].
    rewrite Sa, Sp, Sz. auto.
Qed.

Lemma analyze_log_blind (text : string) (p : option string) :
  log_blind (analyze w text p).
Proof.
  intros s1 s2 E. unfold analyze.
  destruct (match p with Some _ => _ | None => _ end); [split; [reflexivity|exact E]|].
  destruct (truthy _); [|split; [reflexivity|exact E]].
  destruct (retry_log_blind (Nat.pred max_tries) 0 _ (once_log_blind text) s1 s2 E)
    as [R S].
  fold (analyze_with_huggingface w text s1) in R, S.
  fold (analyze_with_huggingface w text s2) in R, S.
  destruct (analyze_with_huggingface w text s1) as [[e1|a1] t1],
           (analyze_with_huggingface w text s2) as [[e2|a2] t2];
    cbn [fst snd] in R, S; try discriminate R; injection R as <-.
  - destruct e1; split; try reflexivity; exact S.
  - split; [reflexivity|exact S].
Qed.

(** [analyze_with_external_api], in two steps. *)
Lemma external_unfold (text : string) (provider : option string) (st : state) :
  analyze_with_external_api w text provider st =
  after_conversion w text (fst (convert_provider provider st))
    (snd (convert_provider provider st)).
Proof.
  unfold analyze_with_external_api.
  destruct (convert_provider provider st). reflexivity.
Qed.

Lemma after_conversion_log_blind (text : string) (p : option string) :
  log_blind (after_conversion w text p).
Proof.
  intros s1 s2 E. unfold after_conversion.
  destruct (analyze_log_blind text p s1 s2 E) as [R S].
  destruct (analyze w text p s1) as [r1 t1], (analyze w text p s2) as [r2 t2].
  cbn [fst snd] in R, S. subst r2.
  destruct (res <- r1 ;; response_of text res); split; try reflexivity;
    exact S.
Qed.

(** [analyze] with no provider and with the HuggingFace member coincide. *)
Lemma analyze_default (text : string) (st : state) :
  analyze w text None st = analyze w text (Some HUGGINGFACE) st.
Proof. reflexivity. Qed.

(** The error that [SentimentAnalysisAPI.analyze] keeps for a provider it
    does not support never leaves [analyze] when HuggingFace is asked for. *)
Lemma analyze_huggingface_supported (text : string) (st : state)
  (m : msg float) (status : option Z) :
  fst (analyze w text (Some HUGGINGFACE) st) <> inl (ExternalAPIError "Provider" m status).
Proof.
  unfold analyze.
  replace (negb (String.eqb HUGGINGFACE HUGGINGFACE)) with false by reflexivity.
  cbv beta iota zeta.
  destruct (truthy _); [|discriminate].
  destruct (analyze_with_huggingface w text st) as [[e|a] t]; [|discriminate].
  destruct e; discriminate.
Qed.

(** The exceptions that building the response can raise. *)
Lemma getitem_error (d : dict float) (k : string) (e : error) :
  getitem d k = inl e -> e = KeyError k.
Proof.
  unfold getitem. destruct (get d k); cbv beta iota delta [ret raise];
    intros E; [discriminate|]. injection E as <-. reflexivity.
Qed.

Lemma py_abs_error (v : value) (e : error) : py_abs v = inl e -> e = TypeError.
Proof.
  destruct v; cbv beta iota delta [py_abs ret raise]; intros E;
    try discriminate; injection E as <-; reflexivity.
Qed.

Lemma response_of_error (text : string) (res : SentimentResult) (e : error) :
  response_of text res = inl e -> (exists k, e = KeyError k) \/ e = TypeError.
Proof.
  unfold response_of.
  destruct (getitem res "provider") as [e1|v1] eqn:E1;
    cbv beta iota delta [bind];
    [intros E; injection E as <-; left; eexists; apply (getitem_error _ _ _ E1)|].
  destruct (getitem res "sentiment") as [e2|v2] eqn:E2;
    [intros E; injection E as <-; left; eexists; apply (getitem_error _ _ _ E2)|].
  destruct (getitem res "score") as [e3|v3] eqn:E3;
    [intros E; injection E as <-; left; eexists; apply (getitem_error _ _ _ E3)|].
  destruct (match v3 with PNone => ret PNone | _ => py_abs v3 end)
    as [e4|v4] eqn:E4; [|discriminate].
  intros E; injection E as <-. right.
  destruct v3; try discriminate E4; apply (py_abs_error _ _ E4).
Qed.

(** C3, as amended: a provider name that is not the name of a supported
    provider makes [analyze_with_external_api] fall back on HuggingFace.
    It returns or raises what it does for "huggingface", with the same
    tries, requests and pauses; a non-empty name is logged in a warning;
    the error for an unsupported provider never reaches the caller, and
    is raised only by [SentimentAnalysisAPI.analyze] called with that name. *)
Theorem unsupported_provider_defaults (text p : string) (st : state) :
  APIProvider (lower p) = None ->
  fst (analyze_with_external_api w text (Some p) st)
  = fst (analyze_with_external_api w text (Some HUGGINGFACE) st) /\
  same_effects (snd (analyze_with_external_api w text (Some p) st))
               (snd (analyze_with_external_api w text (Some HUGGINGFACE) st)) /\
  (truthy (Some p) = true ->
   convert_provider (Some p) st
   = (Some HUGGINGFACE, logged (Warning (UnsupportedProvider p)) st)) /\
  (forall m status,
     fst (analyze_with_external_api w text (Some p) st)
     <> inl (Exception_ (Prefixed "External sentiment analysis failed: "
                           (ExternalAPIError "Provider" m status)))) /\
  analyze w text (Some p) st
  = (inl (ExternalAPIError "Provider" (UnsupportedProvider p) (Some 400%Z)), st).
Proof.
  intros U.
  assert (Conv : convert_provider (Some p) st
                 = if truthy (Some p)
                   then (Some HUGGINGFACE, logged (Warning (UnsupportedProvider p)) st)
                   else (None, st)).
  { unfold convert_provider. rewrite U. reflexivity. }
  assert (Same : fst (analyze_with_external_api w text (Some p) st)
                 = fst (analyze_with_external_api w text (Some HUGGINGFACE) st) /\
                 same_effects (snd (analyze_with_external_api w text (Some p) st))
                   (snd (analyze_with_external_api w text (Some HUGGINGFACE) st))).
  { rewrite !external_unfold, Conv.
    replace (convert_provider (Some HUGGINGFACE) st) with (Some HUGGINGFACE, st)
      by reflexivity.
    destruct (truthy (Some p)); cbn [fst snd].
    - apply after_conversion_log_blind. repeat split.
    - repeat split. }
  destruct Same as [R S].
  split; [exact R|]. split; [exact S|].
  split; [intros T; rewrite Conv, T; reflexivity|].
  split.
  - intros m status. rewrite R, external_unfold.
    replace (convert_provider (Some HUGGINGFACE) st) with (Some HUGGINGFACE, st)
      by reflexivity.
    cbn [fst snd]. unfold after_conversion.
    pose proof (analyze_huggingface_supported text st m status) as NA.
    destruct (analyze w text (Some HUGGINGFACE) st) as [[e|res] t];
      cbn [fst] in NA; cbv beta iota delta [bind].
    + cbn [fst]. intros E. apply NA. injection E as ->. reflexivity.
    + destruct (response_of text res) as [e|d] eqn:E; cbn [fst];
        [|discriminate].
      destruct (response_of_error _ _ _ E) as [[k ->]| ->]; discriminate.
  - unfold analyze.
    assert (N : String.eqb p HUGGINGFACE = false).
    { destruct (String.eqb p HUGGINGFACE) eqn:E; [|reflexivity].
      apply String.eqb_eq in E. subst p. discriminate U. }
    rewrite N. reflexivity.
Qed.

(** ** Results that are returned *)

(** C4, as amended: a result returned by [analyze_with_external_api] has
    exactly the fields text, provider, sentiment, score and confidence (those
    of the route's [SentimentResponse]): the text analysed, the provider
    "huggingface", one of the three sentiment strings, and two floats. *)
Theorem external_result_fields (text : string) (provider : option string)
  (st : state) (r : SentimentResult) :
  fst (analyze_with_external_api w text provider st) = inr r ->
  keys r = ["text"; "provider"; "sentiment"; "score"; "confidence"] /\
  get r "text" = Some (PStr text) /\
  get r "provider" = Some (PStr "huggingface") /\
  exists sentiment score confidence,
    get r "sentiment" = Some (PStr sentiment) /\
    (sentiment = "positive" \/ sentiment = "negative" \/ sentiment = "neutral") /\
    get r "score" = Some (PFloat score) /\
    get r "confidence" = Some (PFloat confidence).
Proof.
  intros R. apply external_success in R.
  destruct R as (sentiment & a & sign & -> & _ & V).
  repeat (split; [reflexivity|]).
  exists sentiment, (a * sign), (abs (a * sign)).
  repeat (split; [reflexivity|]);
    (split; [|split; reflexivity]).
  destruct V as [[-> _]|[[-> _]|[-> _]]]; auto.
Qed.

(** What the multiplication by the sign does achieve: in a result
    returned by [analyze_with_external_api] the confidence is the
    absolute value of the score, and the score is either NaN or of the
    sign of the label: at least 0 under "positive", at most 0 under
    "negative", and 0 under "neutral". *)
Theorem external_score_sign (text : string) (provider : option string)
  (st : state) (r : SentimentResult) :
  fst (analyze_with_external_api w text provider st) = inr r ->
  exists sentiment score,
    get r "sentiment" = Some (PStr sentiment) /\
    get r "score" = Some (PFloat score) /\
    get r "confidence" = Some (PFloat (abs score)) /\
    (score = nan \/
     ((sentiment = "positive" -> (0 <=? score) = true) /\
      (sentiment = "negative" -> (score <=? 0) = true) /\
      (sentiment = "neutral" -> score = 0))).
Proof.
  intros R. apply external_success in R.
  destruct R as (sentiment & a & sign & -> & Ha & V).
  exists sentiment, (a * sign).
  repeat (split; [reflexivity|]).
  destruct V as [[-> ->]|[[-> ->]|[-> ->]]].
  - destruct (mul_one_nonneg a Ha) as [N|P]; [left; exact N|right].
    repeat split; intros E; try discriminate E. exact P.
  - destruct (mul_minus_one_nonpos a Ha) as [N|P]; [left; exact N|right].
    repeat split; intros E; try discriminate E. exact P.
  - destruct (mul_zero_null a Ha) as [N|P]; [left; exact N|right].
    repeat split; intros E; try discriminate E. exact P.
Qed.

End Runs.

(** The fall-back at work: "openai" is not a supported provider. *)
Lemma openai_defaults_to_huggingface :
  APIProvider (lower "openai") = None /\
  fst (analyze_with_external_api Samples.good_world "hello" (Some "openai") initial)
  = fst (analyze_with_external_api Samples.good_world "hello" (Some HUGGINGFACE) initial).
Proof.
  split; [reflexivity|].
  apply (unsupported_provider_defaults Samples.good_world "hello" "openai" initial).
  reflexivity.
Defined.

(** C3, the claim as stated fails: with the provider name "openai" the
    call returns a HuggingFace result, and only a warning records the name. *)
Lemma openai_is_answered_by_huggingface :
  APIProvider (lower "openai") = None /\
  analyze_with_external_api Samples.good_world "hello" (Some "openai") initial
  = (inr [ ("text", PStr "hello"); ("provider", PStr "huggingface");
           ("sentiment", PStr "positive"); ("score", PFloat 0.9);
           ("confidence", PFloat 0.9) ],
     {| attempts := 1; posts := 1; sleeps := [];
        log := [Warning (UnsupportedProvider "openai")] |}).
Proof. split; vm_compute; reflexivity. Qed.

(** The fields of a result, on a provider that answers. *)
Lemma fields_of_a_good_answer :
  fst (analyze_with_external_api Samples.good_world "hello" None initial)
  = inr Samples.good_answer /\
  keys Samples.good_answer
  = ["text"; "provider"; "sentiment"; "score"; "confidence"].
Proof.
  split.
  - vm_compute. reflexivity.
  - apply (external_result_fields Samples.good_world "hello" None initial).
    vm_compute. reflexivity.
Defined.

(** C4, the claim as stated fails: a returned result has none of the fields
    positive, negative, neutral, compound, label. *)
Lemma good_answer_lacks_core_fields :
  exists r : SentimentResult,
    fst (analyze_with_external_api Samples.good_world "hello" None initial) = inr r /\
    has_key r "positive" = false /\ has_key r "negative" = false /\
    has_key r "neutral" = false /\ has_key r "compound" = false /\
    has_key r "label" = false.
Proof.
  eexists. split; [vm_compute; reflexivity|].
  repeat split; vm_compute; reflexivity.
Qed.

(** The sign of a result, on a provider that answers. *)
Lemma sign_of_a_good_answer :
  fst (analyze_with_external_api Samples.good_world "hello" None initial)
  = inr Samples.good_answer /\
  exists sentiment score,
    get Samples.good_answer "sentiment" = Some (PStr sentiment) /\
    get Samples.good_answer "score" = Some (PFloat score) /\
    get Samples.good_answer "confidence" = Some (PFloat (abs score)) /\
    (score = nan \/
     ((sentiment = "positive" -> (0 <=? score) = true) /\
      (sentiment = "negative" -> (score <=? 0) = true) /\
      (sentiment = "neutral" -> score = 0))).
Proof.
  assert (H : fst (analyze_with_external_api Samples.good_world "hello" None initial)
              = inr Samples.good_answer) by (vm_compute; reflexivity).
  split; [exact H|].
  exact (external_score_sign Samples.good_world "hello" None initial _ H).
Defined.

(** C9: the code misses what its comment "Ensure score has correct sign"
    announces.  When the provider's score is infinite (the JSON number
    1e999) under a neutral label, [abs(score) * 0.0] is NaN: the result
    has sentiment "neutral" with a score that is not 0, nor at least or
    at most 0, and a NaN confidence. *)
Lemma neutral_score_not_zero :
  fst (analyze_with_external_api Samples.overflow_world "hello" None initial)
  = inr [ ("text", PStr "hello"); ("provider", PStr "huggingface");
          ("sentiment", PStr "neutral"); ("score", PFloat nan);
          ("confidence", PFloat nan) ] /\
  (nan =? 0) = false /\ (0 <=? nan) = false /\ (nan <=? 0) = false.
Proof. repeat split; vm_compute; reflexivity. Qed.

(** The loop on a provider that cannot be reached. *)
Lemma gives_up_when_down :
  (forall st0, exists e,
      fst (huggingface_once Samples.down_world "hello" st0) = inl e /\
      retryable e = true) /\
  attempts (snd (analyze_with_huggingface Samples.down_world "hello" initial)) = 3%nat /\
  sleeps (snd (analyze_with_huggingface Samples.down_world "hello" initial)) = [1; 2]%nat.
Proof.
  assert (H : forall st0, exists e,
      fst (huggingface_once Samples.down_world "hello" st0) = inl e /\
      retryable e = true).
  { intros st0. eexists. split; reflexivity. }
  split; [exact H|].
  destruct (analyze_with_huggingface_gives_up Samples.down_world "hello" initial H)
    as (e & st3 & _ & _ & _ & A & S & _).
  split; [exact A|exact S].
Defined.

End ExternalApiFacts.


(* ================================================================== *)
(** * Properties of the history endpoint *)
(* ================================================================== *)

Module RoutesFacts.
Import Py Routes.

(** The rows the query selects. *)
Lemma query_by_user_spec (db : table) (uid : Z) (a : Analysis) :
  In a (query_by_user db uid) <-> In a db /\ user_id a = uid.
Proof.
  unfold query_by_user. rewrite filter_In, Z.eqb_eq. reflexivity.
Qed.

(** Rows of other users do not change what the query selects. *)
Lemma query_differs_elsewhere (uid : Z) (db db' : table) :
  differs_elsewhere uid db db' ->
  query_by_user db uid = query_by_user db' uid.
Proof.
  unfold query_by_user.
  induction 1 as [|a db db' _ IH|a db db' Ha _ IH|a db db' Ha _ IH];
    cbn [filter].
  - reflexivity.
  - rewrite IH. reflexivity.
  - apply Z.eqb_neq in Ha. rewrite Ha. exact IH.
  - apply Z.eqb_neq in Ha. rewrite Ha. exact IH.
Qed.

(** C10: the history of a user lists the stored analyses whose [user_id]
    is the user's id, one entry for each, and no other; inserting or
    deleting analyses of other users leaves it unchanged. *)
Theorem history_of_user_only (current_user : User) (db db' : table) :
  differs_elsewhere (id current_user) db db' ->
  get_analysis_history db current_user = get_analysis_history db' current_user /\
  (forall entry,
     In entry (get_analysis_history db current_user) <->
     exists a, In a db /\ user_id a = id current_user /\ entry = history_entry a) /\
  length (get_analysis_history db current_user)
  = count_occ Z.eq_dec (map user_id db) (id current_user).
Proof.
  intros D. unfold get_analysis_history. split; [|split].
  - rewrite (query_differs_elsewhere _ _ _ D). reflexivity.
  - intros entry. rewrite in_map_iff. split.
    + intros (a & <- & Ha). apply query_by_user_spec in Ha.
      exists a. tauto.
    + intros (a & Ha & Hu & ->). exists a. split; [reflexivity|].
      apply query_by_user_spec. tauto.
  - rewrite length_map. unfold query_by_user.
    induction db as [|a rest IH] in |- *; [reflexivity|].
    cbn [filter map count_occ].
    destruct (Z.eq_dec (user_id a) (id current_user)) as [E|E].
    + apply Z.eqb_eq in E. rewrite E. cbn [length]. rewrite IH. reflexivity.
    + apply Z.eqb_neq in E. rewrite E. exact IH.
Qed.

(** The history of alice does not see the analysis of the other user. *)
Lemma history_of_alice :
  differs_elsewhere (id Samples.alice) Samples.sample_table Samples.alice_only /\
  get_analysis_history Samples.sample_table Samples.alice
  = get_analysis_history Samples.alice_only Samples.alice.
Proof.
  assert (D : differs_elsewhere (id Samples.alice)
                Samples.sample_table Samples.alice_only).
  { apply de_same, de_left; [discriminate|]. apply de_same, de_nil. }
  split; [exact D|].
  apply (history_of_user_only Samples.alice _ _ D).
Defined.
End RoutesFacts.


(* ================================================================== *)
(** * Properties of the analyzer, whatever the scorer *)
(* ================================================================== *)

Module AnalyzerFacts.
Import Py SentimentAnalyzer.

(** ** The label of an [int] score *)

(** A multiple of [p] against a number strictly between 0 and [p]. *)
Lemma scaled_order (n c p : Z) :
  (0 < c < p)%Z ->
  ((n * p ?= c)%Z = if (1 <=? n)%Z then Gt else Lt) /\
  ((n * p ?= - c)%Z = if (n <=? -1)%Z then Lt else Gt).
Proof.
  intros [Hc Hp]. split.
  - destruct (Z.leb_spec 1 n).
    + apply Z.compare_gt_iff. nia.
    + apply Z.compare_lt_iff. nia.
  - destruct (Z.leb_spec n (-1)).
    + apply Z.compare_lt_iff. nia.
    + apply Z.compare_gt_iff. nia.
Qed.

(** Both thresholds lie strictly between -1 and 1, so an [int] score is
    positive from 1 on, negative up to -1, and neutral when it is 0. *)
Lemma get_sentiment_label_int_cases (n : Z) :
  get_sentiment_label_int n =
  if (1 <=? n)%Z then POSITIVE else if (n <=? -1)%Z then NEGATIVE else NEUTRAL.
Proof.
  destruct LabelFacts.threshold_spec as [P N].
  assert (B : (0 < 7205759403792794 < 2 ^ 57)%Z) by (split; reflexivity).
  destruct (scaled_order n _ _ B) as [G L].
  unfold get_sentiment_label_int, int_ge, int_le, compare_int_float.
  rewrite P, N.
  change (0 <=? -57)%Z with false. cbv iota.
  change (- -57)%Z with 57%Z.
  change (Z.neg 7205759403792794) with (Z.opp 7205759403792794).
  rewrite G, L.
  destruct (1 <=? n)%Z eqn:E1; [reflexivity|].
  destruct (n <=? -1)%Z; reflexivity.
Qed.

Section AnyScorer.
Context {F : Type} `{Score F}.
Variable polarity_scores : string -> result F (dict F).

(** [d[k]] returns exactly what [d.get(k)] finds. *)
Lemma getitem_some (d : dict F) (k : string) (v : pyval F) :
  getitem d k = inr v <-> get d k = Some v.
Proof.
  unfold getitem. destruct (get d k); cbv beta iota delta [ret raise]; split;
    intros E; try discriminate; injection E as <-; reflexivity.
Qed.

(** A number gets a label, and nothing else does. *)
Lemma label_of_score_number (c : pyval F) :
  if is_number c then exists l, label_of_score c = inr l
  else label_of_score c = inl TypeError.
Proof.
  destruct c; cbn [is_number label_of_score];
    solve [reflexivity | eexists; reflexivity].
Qed.

(** The label of a number: that of [get_sentiment_label] for a float, and
    for an [int] the sign of the number. *)
Lemma label_of_score_cases (c : pyval F) (l : SentimentLabel) :
  label_of_score c = inr l <->
  (exists x, c = PFloat x /\ l = get_sentiment_label x) \/
  (exists n, c = PInt n /\
     l = if (1 <=? n)%Z then POSITIVE
         else if (n <=? -1)%Z then NEGATIVE else NEUTRAL) \/
  (exists b : bool, c = PBool b /\ l = if b then POSITIVE else NEUTRAL).
Proof.
  split.
  - destruct c as [ |b|n|x|s|ls|dd]; cbn [label_of_score];
      cbv beta iota delta [ret raise]; intros E; try discriminate;
      injection E as <-.
    + right. right. exists b. split; [reflexivity|].
      rewrite get_sentiment_label_int_cases. destruct b; reflexivity.
    + right. left. exists n.
      split; [reflexivity|apply get_sentiment_label_int_cases].
    + left. eauto.
  - intros [(x & -> & ->)|[(n & -> & ->)|(b & -> & ->)]]; cbn [label_of_score];
      cbv beta iota delta [ret]; rewrite ?get_sentiment_label_int_cases.
    + reflexivity.
    + reflexivity.
    + destruct b; reflexivity.
Qed.

(** What [analyze_text] returns when it returns. *)
Lemma analyze_text_ok (t : string) (r : dict F) :
  analyze_text polarity_scores t = inr r <->
  exists d c l pos neg neu,
    polarity_scores t = inr d /\
    get d "compound" = Some c /\
    label_of_score c = inr l /\
    get d "pos" = Some pos /\ get d "neg" = Some neg /\ get d "neu" = Some neu /\
    r = [ ("scores", PDict [ ("positive", pos); ("negative", neg);
                             ("neutral", neu); ("compound", c) ]);
          ("label", PStr (label_value l));
          ("text", PStr t) ].
Proof.
  split.
  - unfold analyze_text, analyze, analyze_with_vader.
    destruct (polarity_scores t) as [e|d]; cbv beta iota delta [bind];
      [discriminate|].
    destruct (getitem d "compound") as [e|c] eqn:C; [discriminate|].
    destruct (label_of_score c) as [e|l] eqn:L; [discriminate|].
    destruct (getitem d "pos") as [e|pos] eqn:P; [discriminate|].
    destruct (getitem d "neg") as [e|neg] eqn:N; [discriminate|].
    destruct (getitem d "neu") as [e|neu] eqn:U; [discriminate|].
    cbv beta iota delta [ret]. intros E. injection E as <-.
    apply getitem_some in C, P, N, U.
    exists d, c, l, pos, neg, neu. repeat split; assumption.
  - intros (d & c & l & pos & neg & neu & D & C & L & P & N & U & ->).
    apply getitem_some in C, P, N, U.
    unfold analyze_text, analyze, analyze_with_vader.
    rewrite D. cbv beta iota delta [bind]. rewrite C, L, P, N, U. reflexivity.
Qed.

(** [analyze_text] returns exactly when the scorer returns a dictionary
    that has a number under "compound" (a float, or an [int] or [bool],
    which Python compares with the thresholds as well) and something
    under "pos", "neg" and "neu".  The result then holds these four values
    unchanged under the keys positive, negative, neutral and compound,
    the text, and the label of the compound score: the one
    [get_sentiment_label] gives a float; for an integer positive from 1
    on, negative up to -1 and neutral at 0; for [True] positive and for
    [False] neutral. *)
Theorem analyze_text_returns (t : string) (r : dict F) :
  analyze_text polarity_scores t = inr r <->
  exists d c l pos neg neu,
    polarity_scores t = inr d /\
    get d "compound" = Some c /\
    ((exists x, c = PFloat x /\ l = get_sentiment_label x) \/
     (exists n, c = PInt n /\
        l = if (1 <=? n)%Z then POSITIVE
            else if (n <=? -1)%Z then NEGATIVE else NEUTRAL) \/
     (exists b : bool, c = PBool b /\ l = if b then POSITIVE else NEUTRAL)) /\
    get d "pos" = Some pos /\ get d "neg" = Some neg /\ get d "neu" = Some neu /\
    r = [ ("scores", PDict [ ("positive", pos); ("negative", neg);
                             ("neutral", neu); ("compound", c) ]);
          ("label", PStr (label_value l));
          ("text", PStr t) ].
Proof.
  rewrite analyze_text_ok. split.
  - intros (d & c & l & pos & neg & neu & D & C & L & R).
    apply label_of_score_cases in L.
    exists d, c, l, pos, neg, neu. auto.
  - intros (d & c & l & pos & neg & neu & D & C & L & R).
    apply label_of_score_cases in L.
    exists d, c, l, pos, neg, neu. auto.
Qed.

(** Whatever goes wrong, [analyze_text] raises a plain [Exception] whose
    message carries the cause.  The cause is the exception of the scorer,
    or the first failure met in reading its dictionary: the [KeyError] of
    a missing "compound"; the [TypeError] of a compound score that is no
    number; and, the compound score being a number, the [KeyError] of
    the first key missing among "pos", "neg" and "neu", in that order. *)
Theorem analyze_text_raises (t : string) (x : exn F) :
  analyze_text polarity_scores t = inl x ->
  exists cause,
    x = Exception_ (Prefixed "Failed to analyze text: " cause) /\
    (polarity_scores t = inl cause \/
     exists d, polarity_scores t = inr d /\
       ((get d "compound" = None /\ cause = KeyError "compound") \/
        exists c, get d "compound" = Some c /\
          ((is_number c = false /\ cause = TypeError) \/
           (is_number c = true /\
            ((get d "pos" = None /\ cause = KeyError "pos") \/
             (get d "pos" <> None /\ get d "neg" = None /\
              cause = KeyError "neg") \/
             (get d "pos" <> None /\ get d "neg" <> None /\
              get d "neu" = None /\ cause = KeyError "neu")))))).
Proof.
  unfold analyze_text.
  destruct (analyze polarity_scores t) as [e|r] eqn:A; [|discriminate].
  intros E. injection E as <-. exists e. split; [reflexivity|].
  revert A. unfold analyze, analyze_with_vader.
  destruct (polarity_scores t) as [e0|d]; cbv beta iota delta [bind].
  { intros A. injection A as <-. left. reflexivity. }
  intros A. right. exists d. split; [reflexivity|].
  revert A. unfold getitem.
  destruct (get d "compound") as [c|]; cbv beta iota delta [raise ret].
  2:{ intros A. injection A as <-. left. auto. }
  intros A. right. exists c. split; [reflexivity|]. revert A.
  pose proof (label_of_score_number c) as L.
  destruct (is_number c).
  2:{ rewrite L. intros A. injection A as <-. left. auto. }
  destruct L as [l ->]. intros A. right. split; [reflexivity|]. revert A.
  destruct (get d "pos").
  2:{ intros A. injection A as <-. left. auto. }
  destruct (get d "neg").
  2:{ intros A. injection A as <-. right. left.
      repeat split; congruence. }
  destruct (get d "neu"); [discriminate|].
  intros A. injection A as <-. right. right. repeat split; congruence.
Qed.
End AnyScorer.

(** A scorer without a compound score. *)
Lemma broken_scorer_raises :
  analyze_text Scenarios.broken_scorer "hello"
  = inl (Exception_ (Prefixed "Failed to analyze text: " (KeyError "compound"))) /\
  exists cause : exn float,
    Exception_ (Prefixed "Failed to analyze text: " (KeyError "compound"))
    = Exception_ (Prefixed "Failed to analyze text: " cause).
Proof.
  split; [reflexivity|].
  destruct (analyze_text_raises Scenarios.broken_scorer "hello" _ eq_refl)
    as (cause & E & _).
  exists cause. exact E.
Defined.
End AnalyzerFacts.


(* ================================================================== *)
(** * The label follows the score *)
(* ================================================================== *)

Module LabelOrderFacts.
Import Py SentimentAnalyzer LabelOrder.
#[local] Open Scope float_scope.

(** Decides an order between specification floats whose comparisons are
    spelled out. *)
Ltac by_comparisons :=
  cbv beta iota delta [SFleb SFcompare];
  change (Pos.compare_cont Eq) with Pos.compare;
  repeat match goal with
         | |- context [Z.compare ?a ?b] => destruct (Z.compare_spec a b)
         | |- context [Pos.compare ?a ?b] => destruct (Pos.compare_spec a b)
         end;
  cbv beta iota delta [CompOpp];
  intros; try discriminate; try reflexivity; exfalso; lia.

(** The order of finite floats of one sign is transitive. *)
Lemma leb_trans_finite (s : bool) (ma mb mc : positive) (ea eb ec : Z) :
  SFleb (S754_finite s ma ea) (S754_finite s mb eb) = true ->
  SFleb (S754_finite s mb eb) (S754_finite s mc ec) = true ->
  SFleb (S754_finite s ma ea) (S754_finite s mc ec) = true.
Proof. destruct s; by_comparisons. Qed.

(** What lies above a score that reaches 0.05 reaches it too. *)
Lemma above_threshold (c1 c2 : float) :
  (0.05 <=? c1) = true -> (c1 <=? c2) = true -> (0.05 <=? c2) = true.
Proof.
  destruct LabelFacts.threshold_spec as [P _].
  rewrite (leb_spec 0.05 c1), (leb_spec c1 c2), (leb_spec 0.05 c2), P.
  destruct (Prim2SF c1) as [[|]|[|]| |[|] m1 e1];
    destruct (Prim2SF c2) as [[|]|[|]| |[|] m2 e2];
    try apply leb_trans_finite;
    cbv beta iota delta [SFleb SFcompare]; intros;
    solve [discriminate | reflexivity].
Qed.

(** What lies below a score that is at most -0.05 is at most -0.05 too. *)
Lemma below_threshold (c1 c2 : float) :
  (c2 <=? -0.05) = true -> (c1 <=? c2) = true -> (c1 <=? -0.05) = true.
Proof.
  destruct LabelFacts.threshold_spec as [_ N].
  rewrite (leb_spec c2 (-0.05)), (leb_spec c1 c2), (leb_spec c1 (-0.05)), N.
  destruct (Prim2SF c1) as [[|]|[|]| |[|] m1 e1];
    destruct (Prim2SF c2) as [[|]|[|]| |[|] m2 e2];
    try (intros A B; exact (leb_trans_finite true _ _ _ _ _ _ B A));
    cbv beta iota delta [SFleb SFcompare]; intros;
    solve [discriminate | reflexivity].
Qed.

(** The label follows the score: of two scores, the greater one never
    gets the lower label (NEGATIVE below NEUTRAL below POSITIVE). *)
Theorem get_sentiment_label_monotone (c1 c2 : float) :
  (c1 <=? c2) = true ->
  (label_rank (get_sentiment_label c1) <= label_rank (get_sentiment_label c2))%nat.
Proof.
  intros L.
  pose proof (above_threshold c1 c2) as A.
  pose proof (below_threshold c1 c2) as B.
  pose proof (LabelFacts.thresholds_disjoint c2) as D.
  cbv beta iota delta [get_sentiment_label ge le of_literal float_score].
  destruct (0.05 <=? c1); destruct (0.05 <=? c2);
    destruct (c1 <=? -0.05); destruct (c2 <=? -0.05);
    cbv beta iota delta [label_rank];
    try specialize (A eq_refl L); try specialize (B eq_refl L);
    try specialize (D eq_refl);
    try discriminate; lia.
Qed.

(** Two scores on either side of zero. *)
Lemma labels_of_two_scores :
  (-0.3 <=? 0.2) = true /\
  (label_rank (get_sentiment_label (-0.3)%float)
   <= label_rank (get_sentiment_label 0.2%float))%nat.
Proof.
  split; [reflexivity|].
  apply get_sentiment_label_monotone. reflexivity.
Defined.
End LabelOrderFacts.


(* ================================================================== *)
(** * More properties of the external provider path *)
(* ================================================================== *)

Module ProviderFacts.
Import Py ExternalApi FloatSpec FloatFacts.
#[local] Open Scope float_scope.

(** ** Decoded bodies *)

(** A decoded body gives a result only if the body (or, for a non-empty
    list, its first element) is a dictionary with a string under "label";
    the result keeps that dictionary as raw response, and its sentiment is
    read from the label without regard to case, every label other than
    positive and negative giving "neutral". *)
Theorem parse_response_accepts (text : string) (body : value)
  (res : SentimentResult) :
  parse_response text body = inr res ->
  exists d l,
    match body with PList (first :: _) => first | _ => body end = PDict d /\
    get d "label" = Some (PStr l) /\
    get res "raw_response" = Some (PDict d) /\
    get res "text" = Some (PStr text) /\
    get res "provider" = Some (PStr "huggingface") /\
    get res "sentiment"
    = Some (PStr (if String.eqb (lower l) "positive" then "positive"
                  else if String.eqb (lower l) "negative" then "negative"
                  else "neutral")).
Proof.
  unfold parse_response.
  set (result := match body with PList (first :: _) => first | _ => body end).
  clearbody result.
  destruct (label_in result) as [e|[|]];
    cbv beta iota delta [bind raise]; try discriminate.
  destruct result as [ |b|z|x|s|l0|d];
    cbv beta iota delta [subscript raise]; try discriminate.
  unfold getitem. destruct (get d "label") as [lv|] eqn:L;
    cbv beta iota delta [ret raise]; [|discriminate].
  destruct lv as [ |b|z|x|l|l0|d0];
    cbv beta iota delta [str_lower ret raise];
    try (intros R; discriminate R).
  cbv beta iota delta [get_score ret].
  intros R.
  exists d, l. split; [reflexivity|]. split; [exact L|].
  destruct (String.eqb (lower l) "positive");
    [|destruct (String.eqb (lower l) "negative")];
    destruct (py_abs _) as [e|a']; try discriminate;
    destruct (py_mul_float a' _) as [e|s]; try discriminate;
    injection R as <-; repeat split.
Qed.

(** The exceptions a decoded body can end in. *)
Lemma parse_response_errors (text : string) (body : value) (e : error) :
  parse_response text body = inl e ->
  (exists r, e = ExternalAPIError "HuggingFace" (UnexpectedFormat r) (Some 200%Z)) \/
  e = TypeError \/ e = AttributeError \/ e = OverflowError.
Proof.
  unfold parse_response.
  set (result := match body with PList (first :: _) => first | _ => body end).
  clearbody result.
  destruct (label_in result) as [e0|[|]] eqn:LI;
    cbv beta iota delta [bind raise].
  - intros E. injection E as <-.
    destruct result; cbv beta iota delta [label_in ret raise] in LI;
      try discriminate; injection LI as <-; auto.
  - destruct result as [ |b|z|x|s|l0|d];
      cbv beta iota delta [subscript raise];
      try (intros E; injection E as <-; auto).
    unfold getitem. destruct (get d "label") as [lv|] eqn:L;
      cbv beta iota delta [ret raise].
    2:{ cbv beta iota delta [label_in has_key ret] in LI. rewrite L in LI.
        discriminate. }
    destruct lv as [ |b|z|x|l|l0|d0];
      cbv beta iota delta [str_lower ret raise];
      try (intros E; injection E as <-; auto).
    cbv beta iota delta [get_score ret].
    assert (A : forall v sign e1,
               (a <- py_abs v ;; py_mul_float a sign) = inl e1 ->
               e1 = TypeError \/ e1 = OverflowError).
    { intros v sign e1. destruct v as [ |b|z|x|s|l1|d1];
        cbv beta iota delta [py_abs py_mul_float bind ret raise];
        try (intros E; injection E as <-; auto); try discriminate.
      - destruct (ExternalApiFacts.float_of_int_cases (if b then 1 else 0)%Z) as [O|O];
          rewrite O; [intros E; injection E as <-; auto|discriminate].
      - destruct (ExternalApiFacts.float_of_int_cases (Z.abs z)) as [O|O];
          rewrite O; [intros E; injection E as <-; auto|discriminate]. }
    destruct (String.eqb (lower l) "positive");
      [|destruct (String.eqb (lower l) "negative")];
      (destruct (py_abs _) as [e1|a'] eqn:PA;
       [intros E; injection E as <-;
        destruct (A _ 0 e1 ltac:(rewrite PA; reflexivity)); auto|]);
      (destruct (py_mul_float a' _) as [e1|s] eqn:PM; [|discriminate]);
      intros E; injection E as <-;
      (edestruct A as [T|T]; [rewrite PA; cbv beta iota delta [bind]; exact PM|..]);
      auto.
  - intros E. injection E as <-. eauto.
Qed.

(** A decoded body that gives no result ends in one of four exceptions:
    an [ExternalAPIError] "Unexpected response format" with status 200,
    which the decorator retries on, or a [TypeError], an [AttributeError]
    or an [OverflowError], which it does not retry on. *)
Theorem parse_response_raises (text : string) (body : value) (e : error) :
  parse_response text body = inl e ->
  (retryable e = true /\
   exists r, e = ExternalAPIError "HuggingFace" (UnexpectedFormat r) (Some 200%Z)) \/
  (retryable e = false /\
   (e = TypeError \/ e = AttributeError \/ e = OverflowError)).
Proof.
  intros R.
  destruct (parse_response_errors text body e R) as [[r ->]|[->|[->| ->]]];
    [left|right..]; (split; [reflexivity|]); eauto.
Qed.

(** A dictionary with a string label and no "score" key is accepted: the
    score defaults to 0.0, so the result's score is zero whatever the label. *)
Theorem missing_score_is_zero (text : string) (d : dict float) (l : string) :
  get d "label" = Some (PStr l) -> get d "score" = None ->
  exists sentiment score,
    parse_response text (PDict d)
    = inr (make_SentimentResult HUGGINGFACE text sentiment score (PDict d)) /\
    (score =? 0) = true.
Proof.
  intros L S.
  unfold parse_response, label_in, has_key, subscript, getitem, get_score,
    get_default.
  rewrite L, S. cbv beta iota delta [bind ret str_lower].
  destruct (String.eqb (lower l) "positive");
    [|destruct (String.eqb (lower l) "negative")];
    cbv beta iota delta [py_abs py_mul_float bind ret];
    do 2 eexists; (split; [reflexivity|]); vm_compute; reflexivity.
Qed.

(** ** Tries *)

Section Runs.
Variable w : world.

(** What one try does to the state. *)
Lemma once_counts (text : string) (st : state) :
  let st' := snd (huggingface_once w text st) in
  attempts st' = S (attempts st) /\ sleeps st' = sleeps st /\
  (posts st <= posts st' <= S (posts st))%nat.
Proof.
  assert (T : forall (r : result float SentimentResult) s,
             (s = enter_attempt st \/ s = sent (enter_attempt st) \/
              exists m, s = logged m (sent (enter_attempt st))) ->
             let st' := snd (r, s) in
             attempts st' = S (attempts st) /\ sleeps st' = sleeps st /\
             (posts st <= posts st' <= S (posts st))%nat).
  { intros r s [-> |[-> |[m ->]]]; cbv zeta;
      unfold enter_attempt, sent, logged; cbn [snd attempts posts sleeps];
      repeat split; lia. }
  unfold huggingface_once.
  destruct (negb (truthy _)); [apply T; auto|].
  destruct (post w _) as [m|status body json]; [apply T; eauto|].
  destruct (negb _); [apply T; auto|].
  destruct json as [[]|]; apply T; eauto.
Qed.

(** Whatever the provider does, [analyze_with_huggingface] enters its body
    once, twice or three times, pauses between two tries only, for the
    waits 1 and 2 in that order, and sends at most one request per try. *)
Theorem analyze_with_huggingface_bounded (text : string) (st : state) :
  let st' := snd (analyze_with_huggingface w text st) in
  exists k : nat,
    (1 <= k <= 3)%nat /\
    attempts st' = (attempts st + k)%nat /\
    sleeps st' = (sleeps st ++ firstn (k - 1) [1; 2]%nat)%list /\
    (posts st <= posts st' <= posts st + k)%nat.
Proof.
  unfold analyze_with_huggingface, max_tries. cbn [Nat.pred retry_exception].
  pose proof (once_counts text st) as (A1 & S1 & P1).
  destruct (huggingface_once w text st) as [[e1|a1] st1]; cbn [snd] in *.
  2:{ exists 1%nat. cbn [firstn Nat.sub]. rewrite app_nil_r. repeat split; first [lia | assumption | reflexivity]. }
  destruct (retryable e1).
  2:{ exists 1%nat. cbn [snd firstn Nat.sub]. rewrite app_nil_r.
      repeat split; first [lia | assumption | reflexivity]. }
  pose proof (once_counts text (sleep (expo 0) st1)) as (A2 & S2 & P2).
  destruct (huggingface_once w text (sleep (expo 0) st1)) as [[e2|a2] st2];
    cbn [snd sleep attempts sleeps posts] in *.
  2:{ exists 2%nat. cbn [firstn Nat.sub]. rewrite S2, S1.
      repeat split; first [lia | assumption | reflexivity]. }
  destruct (retryable e2).
  2:{ exists 2%nat. cbn [snd firstn Nat.sub]. rewrite S2, S1.
      repeat split; first [lia | assumption | reflexivity]. }
  pose proof (once_counts text (sleep (expo 1) st2)) as (A3 & S3 & P3).
  exists 3%nat.
  destruct (huggingface_once w text (sleep (expo 1) st2)) as [[e3|a3] st3];
    cbn [snd sleep attempts sleeps posts] in *;
    [destruct (retryable e3)|]; cbn [snd firstn Nat.sub];
    rewrite S3, S2, S1, <- app_assoc; repeat split; first [lia | assumption | reflexivity].
Qed.

(** A body that makes [parse_response] raise something else than an
    [ExternalAPIError] (a label that is not a string, a score that is not
    a number) is not tried again: one request, no pause, and the exception
    passes through [analyze] as it is. *)
Theorem malformed_answer_not_retried (text : string) (st : state)
  (body : string) (decoded : value) (e : error) :
  truthy (HUGGINGFACE_API_KEY w) = true ->
  post w (posts st) = Response 200 body (inr decoded) ->
  parse_response text decoded = inl e ->
  retryable e = false ->
  analyze w text None st = (inl e, sent (enter_attempt st)).
Proof.
  intros K P R N.
  assert (O : huggingface_once w text st = (inl e, sent (enter_attempt st))).
  { unfold huggingface_once. rewrite K. cbn [negb].
    replace (posts (enter_attempt st)) with (posts st) by reflexivity.
    rewrite P. cbn [Z.eqb Pos.eqb negb]. rewrite R. reflexivity. }
  unfold analyze. rewrite K. cbv beta iota zeta.
  unfold analyze_with_huggingface, max_tries. cbn [Nat.pred retry_exception].
  rewrite O, N.
  destruct e; try reflexivity. discriminate N.
Qed.

(** Without an API key [analyze_with_external_api] never enters the body
    of the HuggingFace call: no try, no request, no pause, and the error
    "No sentiment analysis providers available" with status 500. *)
Theorem no_key_no_request (text : string) (provider : option string)
  (st : state) :
  truthy (HUGGINGFACE_API_KEY w) = false ->
  let out := analyze_with_external_api w text provider st in
  fst out
  = inl (Exception_
           (Prefixed "External sentiment analysis failed: "
              (ExternalAPIError "All providers"
                 (Text "No sentiment analysis providers available")
                 (Some 500%Z)))) /\
  attempts (snd out) = attempts st /\ posts (snd out) = posts st /\
  sleeps (snd out) = sleeps st.
Proof.
  intros K. cbv zeta. unfold analyze_with_external_api.
  assert (C : exists p st1,
             convert_provider provider st = (p, st1) /\
             (p = None \/ p = Some HUGGINGFACE) /\
             attempts st1 = attempts st /\ posts st1 = posts st /\
             sleeps st1 = sleeps st).
  { unfold convert_provider.
    destruct (truthy provider); [|eauto 10].
    destruct provider as [p|]; [|eauto 10].
    unfold APIProvider. destruct (String.eqb (lower p) HUGGINGFACE); eauto 10. }
  destruct C as (p & st1 & -> & Hp & A & P & S).
  unfold after_conversion, analyze.
  replace (match p with Some p0 => negb (String.eqb p0 HUGGINGFACE) | None => false end)
    with false by (destruct Hp as [->| ->]; reflexivity).
  rewrite K. cbn [fst snd bind raise logged attempts posts sleeps].
  auto.
Qed.

(** Called without an API key, [analyze_with_huggingface] itself still
    goes through its three tries and two pauses, sending nothing. *)
Theorem no_key_still_retried (text : string) (st : state) :
  truthy (HUGGINGFACE_API_KEY w) = false ->
  analyze_with_huggingface w text st
  = (inl (ExternalAPIError "HuggingFace" (Text "API key not set") (Some 400%Z)),
     {| attempts := attempts st + 3; posts := posts st;
        sleeps := (sleeps st ++ [1; 2]%nat)%list; log := log st |}).
Proof.
  intros K.
  assert (O : forall s, huggingface_once w text s
              = (inl (ExternalAPIError "HuggingFace" (Text "API key not set")
                        (Some 400%Z)), enter_attempt s)).
  { intros s. unfold huggingface_once. rewrite K. reflexivity. }
  unfold analyze_with_huggingface, max_tries. cbn [Nat.pred retry_exception].
  repeat (rewrite O; cbn [retryable]).
  unfold enter_attempt, sleep, expo;
    cbn [attempts posts sleeps log Nat.pow Nat.mul Nat.add].
  rewrite <- app_assoc. cbn [app].
  repeat f_equal. lia.
Qed.


(** The provider name is read without regard to case: a name that lowers
    to "huggingface" is handled as "huggingface" itself, with no warning. *)
Theorem provider_name_ignores_case (text p : string) (st : state) :
  lower p = HUGGINGFACE ->
  analyze_with_external_api w text (Some p) st
  = analyze_with_external_api w text (Some HUGGINGFACE) st.
Proof.
  intros L.
  assert (T : truthy (Some p) = true).
  { destruct p; [discriminate L|reflexivity]. }
  unfold analyze_with_external_api, convert_provider.
  rewrite T, L. reflexivity.
Qed.

(** ** Failures *)

(** An exception that leaves the retry loop was raised by one of the tries. *)
Lemma retry_failure {A} (remaining n : nat) (target : M A)
  (st st' : state) (e : error) :
  retry_exception remaining n target st = (inl e, st') ->
  exists st0, target st0 = (inl e, st').
Proof.
  revert n st. induction remaining as [|k IH]; intros n st;
    cbn [retry_exception]; destruct (target st) as [[e'|a'] st1] eqn:T.
  - destruct (retryable e'); intros R; injection R as <- <-; eauto.
  - discriminate.
  - destruct (retryable e'); [apply IH|].
    intros R; injection R as <- <-; eauto.
  - discriminate.
Qed.

(** The exceptions of one try: an [ExternalAPIError], an exception met
    while reading the decoded answer, or one that [response.json()] raised
    and that is not caught. *)
Lemma once_failure (text : string) (st st' : state) (e : error) :
  huggingface_once w text st = (inl e, st') ->
  (exists p m status, e = ExternalAPIError p m status) \/
  e = TypeError \/ e = AttributeError \/ e = OverflowError \/
  (retryable e = false /\
   exists n body, post w n = Response 200 body (inl e)).
Proof.
  unfold huggingface_once.
  destruct (negb (truthy _)); [intros R; injection R as <- _; eauto|].
  destruct (post w _) as [m|status body json] eqn:P;
    [intros R; injection R as <- _; eauto|].
  destruct (status =? 200)%Z eqn:S; cbn [negb];
    [|intros R; injection R as <- _; eauto].
  apply Z.eqb_eq in S. subst status.
  destruct json as [e0|decoded].
  - destruct e0; intros R; injection R as <- _;
      try (left; eauto; fail);
      do 4 right; (split; [reflexivity|eauto]).
  - intros R. injection R as R _.
    destruct (parse_response_errors _ _ _ R) as [[r ->]|T]; eauto.
    destruct T as [->|[->| ->]]; auto.
Qed.


End Runs.

(** ** Examples *)


(** The body of a good answer is accepted. *)
Lemma good_body_accepted :
  parse_response "hello"
    (PList [PDict [("label", PStr "POSITIVE"); ("score", PFloat 0.9)]])
  = inr (make_SentimentResult HUGGINGFACE "hello" "positive" 0.9
           (PDict [("label", PStr "POSITIVE"); ("score", PFloat 0.9)])) /\
  exists d l,
    PDict [("label", PStr "POSITIVE"); ("score", PFloat 0.9)] = PDict d /\
    get d "label" = Some (@PStr float l).
Proof.
  assert (H : parse_response "hello"
                (PList [PDict [("label", PStr "POSITIVE"); ("score", PFloat 0.9)]])
              = inr (make_SentimentResult HUGGINGFACE "hello" "positive" 0.9
                       (PDict [("label", PStr "POSITIVE"); ("score", PFloat 0.9)])))
    by (vm_compute; reflexivity).
  split; [exact H|].
  destruct (parse_response_accepts _ _ _ H) as (d & l & B & L & _).
  exists d, l. split; [exact B|exact L].
Defined.

(** A body that is no container is a [TypeError]. *)
Lemma null_body_raises :
  parse_response "hello" PNone = inl TypeError /\
  ((retryable (@TypeError float) = true /\
    exists r, @TypeError float
              = ExternalAPIError "HuggingFace" (UnexpectedFormat r) (Some 200%Z)) \/
   (retryable (@TypeError float) = false /\
    (@TypeError float = TypeError \/ @TypeError float = AttributeError \/
     @TypeError float = OverflowError))).
Proof.
  split; [reflexivity|].
  apply (parse_response_raises "hello" PNone). reflexivity.
Defined.

(** A verdict without a score. *)
Lemma bare_verdict_scores_zero :
  get Scenarios.bare_verdict "label" = Some (PStr "NEGATIVE") /\
  get Scenarios.bare_verdict "score" = None /\
  exists sentiment score,
    parse_response "hello" (PDict Scenarios.bare_verdict)
    = inr (make_SentimentResult HUGGINGFACE "hello" sentiment score
             (PDict Scenarios.bare_verdict)) /\
    (score =? 0) = true.
Proof.
  split; [reflexivity|]. split; [reflexivity|].
  apply (missing_score_is_zero "hello" Scenarios.bare_verdict "NEGATIVE");
    reflexivity.
Defined.

(** A label that is a number: one request, and an [AttributeError]. *)
Lemma malformed_world_not_retried :
  truthy (HUGGINGFACE_API_KEY Scenarios.malformed_world) = true /\
  post Scenarios.malformed_world (posts initial)
  = Response 200 "[{...}]" (inr Scenarios.malformed_body) /\
  parse_response "hello" Scenarios.malformed_body = inl AttributeError /\
  retryable (@AttributeError float) = false /\
  analyze Scenarios.malformed_world "hello" None initial
  = (inl AttributeError, sent (enter_attempt initial)).
Proof.
  repeat (split; [reflexivity|]).
  apply (malformed_answer_not_retried Scenarios.malformed_world "hello" initial
           "[{...}]" Scenarios.malformed_body AttributeError); reflexivity.
Defined.

(** No API key: nothing is sent. *)
Lemma no_key_world_sends_nothing :
  truthy (HUGGINGFACE_API_KEY Scenarios.no_key_world) = false /\
  posts (snd (analyze_with_external_api Scenarios.no_key_world "hello"
                (Some "huggingface") initial)) = posts initial.
Proof.
  split; [reflexivity|].
  apply (no_key_no_request Scenarios.no_key_world "hello" (Some "huggingface")
           initial eq_refl).
Defined.

(** No API key, and the decorated call on its own. *)
Lemma no_key_world_three_tries :
  truthy (HUGGINGFACE_API_KEY Scenarios.no_key_world) = false /\
  analyze_with_huggingface Scenarios.no_key_world "hello" initial
  = (inl (ExternalAPIError "HuggingFace" (Text "API key not set") (Some 400%Z)),
     {| attempts := attempts initial + 3; posts := posts initial;
        sleeps := (sleeps initial ++ [1; 2]%nat)%list; log := log initial |}).
Proof.
  split; [reflexivity|].
  apply (no_key_still_retried Scenarios.no_key_world "hello" initial eq_refl).
Defined.


(** "HuggingFace" names the supported provider. *)
Lemma mixed_case_provider :
  lower "HuggingFace" = HUGGINGFACE /\
  analyze_with_external_api Samples.good_world "hello" (Some "HuggingFace") initial
  = analyze_with_external_api Samples.good_world "hello" (Some HUGGINGFACE) initial.
Proof.
  split; [reflexivity|].
  apply provider_name_ignores_case. reflexivity.
Defined.

End ProviderFacts.


(* ================================================================== *)
(** * Properties of the analysis endpoint *)
(* ================================================================== *)

Module SentimentRouteFacts.
Import Py SentimentRoute.
#[local] Existing Instance SentimentAnalyzer.float_score.
#[local] Open Scope float_scope.

Section Endpoint.
Variable w : ExternalApi.world.
Variable polarity_scores : string -> result float (dict float).

(** What the first branch hands over when the external API returns. *)
Lemma external_branch_ok (request : SentimentRequest) (u : Routes.User)
  (st : ExternalApi.state) (res : dict float) (row : Routes.Analysis) :
  fst (external_branch w request u st) = inr (res, row) ->
  exists sentiment score,
    res = [ ("text", PStr (text request));
            ("provider", PStr "huggingface");
            ("sentiment", PStr sentiment);
            ("score", PFloat score);
            ("confidence", PFloat (abs score)) ] /\
    row = new_analysis request u score sentiment.
Proof.
  unfold external_branch.
  pose proof (ExternalApiFacts.external_success w (text request)
                (provider request) st) as S.
  destruct (ExternalApi.analyze_with_external_api w (text request)
              (provider request) st) as [[e|r] st1];
    cbn [fst] in *; cbv beta iota delta [bind]; [discriminate|].
  destruct (S r eq_refl) as (sentiment & a & sign & -> & _).
  replace (getitem _ "score") with (@inr (exn float) _ (PFloat (a * sign)))
    by reflexivity.
  replace (getitem _ "sentiment") with (@inr (exn float) _ (@PStr float sentiment))
    by reflexivity.
  cbv beta iota delta [as_float as_str ret]. intros E. injection E as <- <-.
  exists sentiment, (a * sign). split; reflexivity.
Qed.

(** What the second branch hands over when the analyzer returns, and the
    response that is then built without fail. *)
Lemma local_branch_ok (request : SentimentRequest) (u : Routes.User)
  (res : dict float) (row : Routes.Analysis) :
  local_branch polarity_scores request u = inr (res, row) ->
  exists score,
    let sentiment :=
      SentimentAnalyzer.label_value (SentimentAnalyzer.get_sentiment_label score) in
    row = new_analysis request u score sentiment /\
    local_response request res
    = inr [ ("text", PStr (text request));
            ("sentiment", PStr sentiment);
            ("score", PFloat score);
            ("confidence", PFloat (abs score));
            ("provider", PStr "local") ].
Proof.
  unfold local_branch.
  destruct (SentimentAnalyzer.analyze_text polarity_scores (text request))
    as [e|r] eqn:A; cbv beta iota delta [bind]; [discriminate|].
  apply AnalyzerFacts.analyze_text_ok in A.
  destruct A as (d & cv & l & pos & neg & neu & _ & _ & L & _ & _ & _ & ->).
  replace (compound_of _) with (@inr (exn float) _ cv) by reflexivity.
  replace (getitem _ "label")
    with (@inr (exn float) _ (@PStr float (SentimentAnalyzer.label_value l)))
    by reflexivity.
  destruct cv as [ |b|z|c|s|ls|dd]; cbv beta iota delta [as_float raise ret];
    try discriminate.
  injection L as <-.
  cbv beta iota delta [as_str ret]. intros E. injection E as <- <-.
  exists c. split; reflexivity.
Qed.

(** The outcomes of the endpoint, branch by branch. *)
Lemma endpoint_cases (request : SentimentRequest)
  (db : Routes.table) (u : Routes.User) (st : ExternalApi.state) :
  match analyze_sentiment w polarity_scores request db u st with
  | (inr response, db', st') =>
      exists score sentiment,
        db' = (db ++ [new_analysis request u score sentiment])%list /\
        get response "text" = Some (PStr (text request)) /\
        get response "sentiment" = Some (PStr sentiment) /\
        get response "score" = Some (PFloat score) /\
        get response "confidence" = Some (PFloat (abs score)) /\
        if wants_external request
        then get response "provider" = Some (PStr "huggingface")
        else get response "provider" = Some (PStr "local") /\
             sentiment = SentimentAnalyzer.label_value
                           (SentimentAnalyzer.get_sentiment_label score) /\
             st' = st
  | (inl e, db', st') =>
      db' = db /\
      (exists cause, e = HTTP 500 (Prefixed "Error analyzing sentiment: " cause)) /\
      (wants_external request = false -> st' = st)
  end.
Proof.
  unfold analyze_sentiment.
  destruct (wants_external request).
  - pose proof (external_branch_ok request u st) as E.
    destruct (external_branch w request u st) as [[e|[res row]] st1];
      cbn [fst] in E.
    + split; [reflexivity|]. split; [eexists; reflexivity|discriminate].
    + destruct (E res row eq_refl) as (sentiment & score & -> & ->).
      exists score, sentiment. repeat split.
  - pose proof (local_branch_ok request u) as L.
    destruct (local_branch polarity_scores request u) as [e|[res row]].
    + split; [reflexivity|]. split; [eexists; reflexivity|reflexivity].
    + destruct (L res row eq_refl) as (score & -> & ->).
      eexists. eexists. repeat split.
Qed.

(** The endpoint stores what it returns: a response comes with exactly
    one new row, at the end of the table, that carries the request's
    text, the caller's id and the score and sentiment of the response,
    whose confidence is the absolute value of the score; an exception has
    status 500 and leaves the table as it was. *)
Theorem analyze_sentiment_stores (request : SentimentRequest)
  (db : Routes.table) (u : Routes.User) (st : ExternalApi.state) :
  match analyze_sentiment w polarity_scores request db u st with
  | (inr response, db', _) =>
      exists score sentiment,
        db' = (db ++ [new_analysis request u score sentiment])%list /\
        get response "text" = Some (PStr (text request)) /\
        get response "sentiment" = Some (PStr sentiment) /\
        get response "score" = Some (PFloat score) /\
        get response "confidence" = Some (PFloat (abs score))
  | (inl e, db', _) =>
      db' = db /\
      exists cause, e = HTTP 500 (Prefixed "Error analyzing sentiment: " cause)
  end.
Proof.
  pose proof (endpoint_cases request db u st) as C.
  destruct (analyze_sentiment w polarity_scores request db u st)
    as [[[e|response] db'] st'].
  - destruct C as (D & E & _). auto.
  - destruct C as (score & sentiment & D & T & S & V & F & _).
    exists score, sentiment. auto.
Qed.

(** A response is followed by the matching entry at the end of the
    caller's history: the same text, sentiment, score and confidence, and
    the provider "unknown". *)
Theorem analysis_appears_in_history (request : SentimentRequest)
  (db db' : Routes.table) (u : Routes.User) (st st' : ExternalApi.state)
  (response : dict float) :
  analyze_sentiment w polarity_scores request db u st = (inr response, db', st') ->
  exists entry,
    Routes.get_analysis_history db' u
    = (Routes.get_analysis_history db u ++ [entry])%list /\
    get entry "text" = get response "text" /\
    get entry "sentiment" = get response "sentiment" /\
    get entry "score" = get response "score" /\
    get entry "confidence" = get response "confidence" /\
    get entry "provider" = Some (PStr "unknown").
Proof.
  intros A. pose proof (endpoint_cases request db u st) as C.
  rewrite A in C.
  destruct C as (score & sentiment & -> & T & S & V & F & _).
  exists (Routes.history_entry (new_analysis request u score sentiment)).
  rewrite T, S, V, F. split; [|repeat split].
  unfold Routes.get_analysis_history, Routes.query_by_user.
  rewrite filter_app, map_app. cbn [filter new_analysis Routes.user_id].
  rewrite Z.eqb_refl. reflexivity.
Qed.

(** Whatever a call does, the history of every other user is as before. *)
Theorem other_histories_unchanged (request : SentimentRequest)
  (db : Routes.table) (u v : Routes.User) (st : ExternalApi.state) :
  Routes.id v <> Routes.id u ->
  Routes.get_analysis_history
    (snd (fst (analyze_sentiment w polarity_scores request db u st))) v
  = Routes.get_analysis_history db v.
Proof.
  intros N. pose proof (endpoint_cases request db u st) as C.
  destruct (analyze_sentiment w polarity_scores request db u st)
    as [[[e|response] db'] st']; cbn [fst snd].
  - destruct C as (-> & _). reflexivity.
  - destruct C as (score & sentiment & -> & _).
    unfold Routes.get_analysis_history, Routes.query_by_user.
    rewrite filter_app. cbn [filter new_analysis Routes.user_id].
    apply not_eq_sym, Z.eqb_neq in N. rewrite N. rewrite app_nil_r.
    reflexivity.
Qed.

(** With no provider, an empty one or "local", the request is served by
    the local analyzer: the provider path is not touched (no try, no
    request, no pause, no log record), the response names the provider
    "local", and its sentiment is the label of its score. *)
Theorem local_requests_stay_local (request : SentimentRequest)
  (db : Routes.table) (u : Routes.User) (st : ExternalApi.state) :
  provider request = None \/ provider request = Some "" \/
  provider request = Some "local" ->
  snd (analyze_sentiment w polarity_scores request db u st) = st /\
  forall response,
    fst (fst (analyze_sentiment w polarity_scores request db u st)) = inr response ->
    get response "provider" = Some (PStr "local") /\
    exists score,
      get response "score" = Some (PFloat score) /\
      get response "sentiment"
      = Some (PStr (SentimentAnalyzer.label_value
                      (SentimentAnalyzer.get_sentiment_label score))).
Proof.
  intros P.
  assert (W : wants_external request = false).
  { unfold wants_external. destruct P as [-> |[-> | ->]]; reflexivity. }
  pose proof (endpoint_cases request db u st) as C. rewrite W in C.
  destruct (analyze_sentiment w polarity_scores request db u st)
    as [[[e|response] db'] st']; cbn [fst snd].
  - destruct C as (_ & _ & S). split; [exact (S eq_refl)|discriminate].
  - destruct C as (score & sentiment & _ & _ & S & V & _ & L & -> & ->).
    split; [reflexivity|]. intros r E. injection E as <-.
    split; [exact L|]. exists score. auto.
Qed.

(** Any other provider name, "LOCAL" included, sends the request to the
    external API: the provider path ends in the state that
    [analyze_with_external_api] leaves, a response is the dictionary it
    returned, naming the provider "huggingface", and an exception it
    raised comes back with status 500 and an unchanged table. *)
Theorem other_requests_go_external (request : SentimentRequest)
  (db : Routes.table) (u : Routes.User) (st : ExternalApi.state) (p : string) :
  provider request = Some p -> p <> "" -> p <> "local" ->
  let external := ExternalApi.analyze_with_external_api w (text request) (Some p) st in
  let out := analyze_sentiment w polarity_scores request db u st in
  snd out = snd external /\
  (forall response, fst external = inr response ->
     fst (fst out) = inr response /\
     get response "provider" = Some (PStr "huggingface")) /\
  (forall e, fst external = inl e ->
     fst out = (inl (HTTP 500 (Prefixed "Error analyzing sentiment: " e)), db)).
Proof.
  intros P N1 N2.
  assert (W : wants_external request = true).
  { unfold wants_external. rewrite P.
    apply String.eqb_neq in N1, N2. cbn [truthy]. rewrite N1, N2. reflexivity. }
  cbv zeta. unfold analyze_sentiment. rewrite W.
  unfold external_branch. rewrite P.
  pose proof (ExternalApiFacts.external_success w (text request) (Some p) st) as S.
  destruct (ExternalApi.analyze_with_external_api w (text request) (Some p) st)
    as [[e|r] st1]; cbn [fst snd] in *; cbv beta iota delta [bind].
  - split; [reflexivity|]. split; [discriminate|].
    intros e0 E. injection E as <-. reflexivity.
  - destruct (S r eq_refl) as (sentiment & a & sign & -> & _).
    split; [reflexivity|]. split; [|discriminate].
    intros r E. injection E as <-. split; reflexivity.
Qed.

(** The confidence of a response is never negative: it is NaN or at
    least 0. *)
Theorem confidence_not_negative (request : SentimentRequest)
  (db db' : Routes.table) (u : Routes.User) (st st' : ExternalApi.state)
  (response : dict float) :
  analyze_sentiment w polarity_scores request db u st = (inr response, db', st') ->
  exists confidence,
    get response "confidence" = Some (PFloat confidence) /\
    (confidence = nan \/ (0 <=? confidence) = true).
Proof.
  intros A. pose proof (endpoint_cases request db u st) as C.
  rewrite A in C.
  destruct C as (score & sentiment & _ & _ & _ & _ & F & _).
  exists (abs score). split; [exact F|].
  apply FloatFacts.nonneg_of_signed, FloatFacts.abs_absolute.
Qed.

End Endpoint.

(** ** Examples *)

(** The response to a local request, and the table after it. *)
Lemma local_call :
  analyze_sentiment Samples.good_world Scenarios.steady_scorer
    Scenarios.local_request Samples.sample_table Samples.alice ExternalApi.initial
  = (inr [ ("text", PStr "hello"); ("sentiment", PStr "positive");
           ("score", PFloat 0.6); ("confidence", PFloat 0.6);
           ("provider", PStr "local") ],
     (Samples.sample_table
      ++ [new_analysis Scenarios.local_request Samples.alice 0.6 "positive"])%list,
     ExternalApi.initial).
Proof. vm_compute. reflexivity. Qed.

(** The new analysis of alice is the last entry of her history. *)
Lemma alice_sees_her_analysis :
  analyze_sentiment Samples.good_world Scenarios.steady_scorer
    Scenarios.local_request Samples.sample_table Samples.alice ExternalApi.initial
  = (inr [ ("text", PStr "hello"); ("sentiment", PStr "positive");
           ("score", PFloat 0.6); ("confidence", PFloat 0.6);
           ("provider", PStr "local") ],
     (Samples.sample_table
      ++ [new_analysis Scenarios.local_request Samples.alice 0.6 "positive"])%list,
     ExternalApi.initial) /\
  exists entry,
    Routes.get_analysis_history
      (Samples.sample_table
       ++ [new_analysis Scenarios.local_request Samples.alice 0.6 "positive"])%list
      Samples.alice
    = (Routes.get_analysis_history Samples.sample_table Samples.alice ++ [entry])%list /\
    get entry "provider" = Some (PStr "unknown").
Proof.
  split; [exact local_call|].
  destruct (analysis_appears_in_history _ _ _ _ _ _ _ _ _ local_call)
    as (entry & H & _ & _ & _ & _ & P).
  exists entry. split; [exact H|exact P].
Defined.

(** The history of bob after a call of alice. *)
Lemma bob_sees_no_change :
  Routes.id Scenarios.bob <> Routes.id Samples.alice /\
  Routes.get_analysis_history
    (snd (fst (analyze_sentiment Samples.good_world Scenarios.steady_scorer
                 Scenarios.local_request Samples.sample_table Samples.alice
                 ExternalApi.initial)))
    Scenarios.bob
  = Routes.get_analysis_history Samples.sample_table Scenarios.bob.
Proof.
  assert (N : Routes.id Scenarios.bob <> Routes.id Samples.alice) by discriminate.
  split; [exact N|].
  apply other_histories_unchanged. exact N.
Defined.

(** A request without provider leaves the provider path alone. *)
Lemma local_request_is_local :
  (provider Scenarios.local_request = None \/
   provider Scenarios.local_request = Some "" \/
   provider Scenarios.local_request = Some "local") /\
  snd (analyze_sentiment Samples.down_world Scenarios.steady_scorer
         Scenarios.local_request Samples.sample_table Samples.alice
         ExternalApi.initial)
  = ExternalApi.initial.
Proof.
  assert (P : provider Scenarios.local_request = None \/
              provider Scenarios.local_request = Some "" \/
              provider Scenarios.local_request = Some "local") by (left; reflexivity).
  split; [exact P|].
  apply (local_requests_stay_local Samples.down_world Scenarios.steady_scorer
           Scenarios.local_request Samples.sample_table Samples.alice
           ExternalApi.initial P).
Defined.

(** The provider name "LOCAL" is not "local". *)
Lemma upper_case_local_is_external :
  provider Scenarios.external_request = Some "LOCAL" /\
  "LOCAL" <> "" /\ "LOCAL" <> "local" /\
  snd (analyze_sentiment Samples.good_world Scenarios.steady_scorer
         Scenarios.external_request Samples.sample_table Samples.alice
         ExternalApi.initial)
  = snd (ExternalApi.analyze_with_external_api Samples.good_world "hello"
           (Some "LOCAL") ExternalApi.initial).
Proof.
  assert (N1 : "LOCAL" <> "") by discriminate.
  assert (N2 : "LOCAL" <> "local") by discriminate.
  split; [reflexivity|]. split; [exact N1|]. split; [exact N2|].
  apply (other_requests_go_external Samples.good_world Scenarios.steady_scorer
           Scenarios.external_request Samples.sample_table Samples.alice
           ExternalApi.initial "LOCAL" eq_refl N1 N2).
Defined.

(** The confidence of the response to a local request. *)
Lemma confidence_of_local_call :
  analyze_sentiment Samples.good_world Scenarios.steady_scorer
    Scenarios.local_request Samples.sample_table Samples.alice ExternalApi.initial
  = (inr [ ("text", PStr "hello"); ("sentiment", PStr "positive");
           ("score", PFloat 0.6); ("confidence", PFloat 0.6);
           ("provider", PStr "local") ],
     (Samples.sample_table
      ++ [new_analysis Scenarios.local_request Samples.alice 0.6 "positive"])%list,
     ExternalApi.initial) /\
  exists confidence : float,
    confidence = nan \/ (0 <=? confidence) = true.
Proof.
  split; [exact local_call|].
  destruct (confidence_not_negative _ _ _ _ _ _ _ _ _ local_call) as (c & _ & H).
  exists c. exact H.
Defined.

End SentimentRouteFacts.


(* ================================================================== *)
(** * Properties of registration *)
(* ================================================================== *)

Module AuthRoutesFacts.
Import Py AuthRoutes.

Section Register.
Variable Created : Type.
Variable create_user : list Account -> UserCreate -> Created.

(** A query finds a row exactly when one matches. *)
Lemma first_where_none (p : Account -> bool) (db : list Account) :
  first_where p db = None <-> forall a, In a db -> p a = false.
Proof.
  unfold first_where. split.
  - intros N a Ha. exact (find_none p db N a Ha).
  - intros N. destruct (find p db) as [a|] eqn:F; [|reflexivity].
    apply find_some in F. destruct F as [Ha Pa].
    rewrite (N a Ha) in Pa. discriminate.
Qed.

(** [register_user] hands the request over to [create_user] exactly when
    no account has the requested username and none has the requested
    email; otherwise it raises status 400, naming the username when it is
    taken and the email only when the username is free. *)
Theorem register_user_rejects_duplicates (user : UserCreate) (db : list Account) :
  match register_user Created create_user user db with
  | inr created =>
      created = create_user db user /\
      forall a, In a db ->
        username a <> new_username user /\ email a <> new_email user
  | inl e =>
      (e = SentimentRoute.HTTP 400 (Text "Username already registered") /\
       exists a, In a db /\ username a = new_username user) \/
      (e = SentimentRoute.HTTP 400 (Text "Email already registered") /\
       (forall a, In a db -> username a <> new_username user) /\
       exists a, In a db /\ email a = new_email user)
  end.
Proof.
  unfold register_user.
  destruct (first_where (fun a => String.eqb (username a) (new_username user)) db)
    as [a|] eqn:U.
  - left. split; [reflexivity|].
    apply find_some in U. destruct U as [Ha Pa].
    apply String.eqb_eq in Pa. eauto.
  - pose proof (proj1 (first_where_none _ _) U) as NU.
    assert (FU : forall a, In a db -> username a <> new_username user).
    { intros a Ha. apply String.eqb_neq. exact (NU a Ha). }
    destruct (first_where (fun a => String.eqb (email a) (new_email user)) db)
      as [a|] eqn:E.
    + right. split; [reflexivity|]. split; [exact FU|].
      apply find_some in E. destruct E as [Ha Pa].
      apply String.eqb_eq in Pa. eauto.
    + pose proof (proj1 (first_where_none _ _) E) as NE.
      split; [reflexivity|]. intros a Ha. split; [exact (FU a Ha)|].
      apply String.eqb_neq. exact (NE a Ha).
Qed.

End Register.
End AuthRoutesFacts.
